(** * Bark notification SDK (python/bark_sdk.py): a shallow embedding

    The client builds one HTTP request per notification and turns the
    response into a parsed body or a typed exception.  The embedding keeps
    the shape of the Python source:

    - a Python [str] is a list of Unicode code points;
    - exceptions are values, tagged with their class;
    - methods run in a state-and-exception monad whose state holds the
      client object ([self]) and the list of HTTP requests put on the wire;
    - the [requests] transport is the environment: a function from the
      history of requests and the request at hand to a response or an
      exception;
    - the two scripts (the usage example of bark_sdk.py and [main] of
      example.py) run in a second monad over the first, whose state adds
      the lines printed and the seconds slept; the standard output is
      part of the environment too, and a [print] raises when it does. *)

From Stdlib Require Import List String Ascii Bool NArith ZArith QArith Lia.
From Stdlib Require Import DecimalString.
Import ListNotations.

Local Open Scope list_scope.

(** ** Python values *)

Module Py.

(** [str]: a sequence of code points (each at most 0x10FFFF in Python). *)
Definition str := list N.

(** [bytes]: a sequence of octets, each below 256. *)
Definition bytes := list N.

(** A literal of the source.  Every literal of the SDK is ASCII, so the
    code point of a character is its octet. *)
Definition py (s : string) : str := map N_of_ascii (list_ascii_of_string s).
Arguments py s%_string : simpl never.

Definition str_eqb (a b : str) : bool :=
  if list_eq_dec N.eq_dec a b then true else false.

(** [x in xs] for a list of strings. *)
Definition str_in (x : str) (xs : list str) : bool := existsb (str_eqb x) xs.

(** Truth value of a [str]: the empty string is false. *)
Definition truth (s : str) : bool :=
  match s with [] => false | _ :: _ => true end.

(** Truth value of an [Optional[str]]: [None] and [""] are false. *)
Definition truthy (o : option str) : bool :=
  match o with None => false | Some s => truth s end.

(** A Python [float]: a finite double denotes a rational. *)
Inductive pyfloat :=
| Finite (q : Q)
| Infinite (negative : bool)
| NaN.

(** The values that travel through the SDK: what [json] produces and what
    callers pass as keyword arguments.  A [dict] keeps insertion order. *)
#[local] Set Warnings "-register-all".
Inductive value :=
| VNone
| VBool (b : bool)
| VInt (z : Z)
| VFloat (f : pyfloat)
| VStr (s : str)
| VList (l : list value)
| VDict (d : list (str * value)).
#[local] Set Warnings "register-all".

Definition dict := list (str * value).

(** [k in d] *)
Definition dict_contains (d : dict) (k : str) : bool :=
  existsb (fun kv => str_eqb (fst kv) k) d.

(** [d.get(k)], [None] of the option standing for an absent key. *)
Fixpoint dict_get (d : dict) (k : str) : option value :=
  match d with
  | [] => None
  | (k', v) :: d' => if str_eqb k' k then Some v else dict_get d' k
  end.

(** [d[k] = v]: an existing key keeps its place, a new one goes last. *)
Fixpoint dict_set (d : dict) (k : str) (v : value) : dict :=
  match d with
  | [] => [(k, v)]
  | (k', v') :: d' =>
      if str_eqb k' k then (k', v) :: d' else (k', v') :: dict_set d' k v
  end.

(** [v == n] for an [int] literal [n].  A [bool] is an [int]; a [float]
    is compared by value; any other type is unequal. *)
Definition eq_int (v : value) (n : Z) : bool :=
  match v with
  | VInt z => Z.eqb z n
  | VBool b => Z.eqb (Z.b2z b) n
  | VFloat (Finite q) => Qeq_bool q (inject_Z n)
  | _ => false
  end.

(** [v in xs] for a list of [str] literals: only an equal [str] is in. *)
Definition value_in_strs (v : value) (xs : list str) : bool :=
  match v with
  | VStr s => str_in s xs
  | _ => false
  end.

(** The name of the type of a value, as error messages print it. *)
Definition type_name (v : value) : str :=
  match v with
  | VNone => py "NoneType"
  | VBool _ => py "bool"
  | VInt _ => py "int"
  | VFloat _ => py "float"
  | VStr _ => py "str"
  | VList _ => py "list"
  | VDict _ => py "dict"
  end.

(** *** Exceptions *)

(** The SDK's own classes (bark_sdk.py, lines 7-34); all three derive
    from [BarkException], which derives from [Exception] only. *)
Inductive bark_class :=
| BarkNetworkException
| BarkServerException
| BarkClientException.

(** Classes of the interpreter and of the libraries that the SDK catches
    or lets through. *)
Inductive lib_class :=
| ValueError
| UnicodeEncodeError      (* a ValueError *)
| JSONDecodeError         (* a ValueError *)
| TypeError
| AttributeError
| RequestException
| OtherException.

(** [BarkException.__init__] stores [message], [status_code] and
    [response]; a library exception is kept as its class and [str(e)]. *)
Inductive exn :=
| Bark (c : bark_class) (message : str)
       (status_code : option Z) (response : option value)
| Lib (c : lib_class) (text : str).

(** [isinstance(e, ValueError)] *)
Definition is_ValueError (e : exn) : bool :=
  match e with
  | Lib ValueError _ | Lib UnicodeEncodeError _ | Lib JSONDecodeError _ => true
  | _ => false
  end.

Definition is_TypeError (e : exn) : bool :=
  match e with Lib TypeError _ => true | _ => false end.

Definition is_JSONDecodeError (e : exn) : bool :=
  match e with Lib JSONDecodeError _ => true | _ => false end.

Definition is_RequestException (e : exn) : bool :=
  match e with Lib RequestException _ => true | _ => false end.

(** [str(e)] for a library exception; [BarkException.__str__] is not
    reached by the SDK itself (no handler of the SDK catches its own
    classes and formats them). *)
Definition lib_text (e : exn) : str :=
  match e with
  | Lib _ t => t
  | Bark _ m _ _ => m
  end.

(** The result of evaluating an expression that may raise. *)
Inductive outcome (A : Type) :=
| Return (a : A)
| Raise (e : exn).
Arguments Return {A} a.
Arguments Raise {A} e.

End Py.
Export Py.

(** ** The model of the SDK *)

Section SDK.

(** Two texts are chosen by the interpreter and not by the SDK: what
    [str(e)] gives for the [UnicodeEncodeError] of a string that has no
    UTF-8 encoding, and what an f-string prints for a value that is not a
    [str]. *)
Variable encode_error_text : str -> str.
Variable repr_value : value -> str.

(** [f"{v}"] *)
Definition format (v : value) : str :=
  match v with
  | VStr s => s
  | _ => repr_value v
  end.

(** *** urllib.parse.quote *)

Definition is_surrogate (c : N) : bool :=
  (N.leb 0xD800 c && N.leb c 0xDFFF)%N.

(** The UTF-8 octets of one code point. *)
Definition utf8_char (c : N) : bytes :=
  if (c <? 0x80)%N then [c]
  else if (c <? 0x800)%N then
    [N.lor 0xC0 (N.shiftr c 6); N.lor 0x80 (N.land c 0x3F)]
  else if (c <? 0x10000)%N then
    [N.lor 0xE0 (N.shiftr c 12);
     N.lor 0x80 (N.land (N.shiftr c 6) 0x3F);
     N.lor 0x80 (N.land c 0x3F)]
  else
    [N.lor 0xF0 (N.shiftr c 18);
     N.lor 0x80 (N.land (N.shiftr c 12) 0x3F);
     N.lor 0x80 (N.land (N.shiftr c 6) 0x3F);
     N.lor 0x80 (N.land c 0x3F)].

(** [s.encode('utf-8', 'strict')]: a lone surrogate has no encoding. *)
Definition encode_utf8 (s : str) : outcome bytes :=
  if existsb is_surrogate s
  then Raise (Lib UnicodeEncodeError (encode_error_text s))
  else Return (flat_map utf8_char s).

(** Letters, digits and [_.-~] are never quoted. *)
Definition _ALWAYS_SAFE : bytes :=
  py "ABCDEFGHIJKLMNOPQRSTUVWXYZabcdefghijklmnopqrstuvwxyz0123456789_.-~".

Definition byte_in (b : N) (bs : bytes) : bool := existsb (N.eqb b) bs.

Definition hex_digit (n : N) : N :=
  if (n <? 10)%N then (48 + n)%N else (55 + n)%N.

(** The quoter of one octet: itself when safe, ['%{:02X}'] otherwise. *)
Definition quoter (safe : bytes) (b : N) : str :=
  if byte_in b (_ALWAYS_SAFE ++ safe) then [b]
  else [37%N; hex_digit (b / 16)%N; hex_digit (b mod 16)%N].

Definition quote_from_bytes (bs : bytes) (safe : str) : str :=
  match bs with
  | [] => []
  | _ =>
      let safe := filter (fun c => (c <? 128)%N) safe in
      if forallb (fun b => byte_in b (_ALWAYS_SAFE ++ safe)) bs then bs
      else flat_map (quoter safe) bs
  end.

(** [urllib.parse.quote(string, safe)] for a [str] argument. *)
Definition quote (string : str) (safe : str) : outcome str :=
  if negb (truth string) then Return string
  else
    match encode_utf8 string with
    | Raise e => Raise e
    | Return bs => Return (quote_from_bytes bs safe)
    end.

(** [quote] applied to an [Optional[str]]: [None] is no [str] and falls
    through to [quote_from_bytes], which refuses it. *)
Definition quote_opt (string : option str) (safe : str) : outcome str :=
  match string with
  | Some s => quote s safe
  | None => Raise (Lib TypeError (py "quote_from_bytes() expected bytes"))
  end.

(** The default of the [safe] parameter of [quote]. *)
Definition default_safe : str := py "/".

(** *** requests *)

Inductive http_method := GET | POST.

(** A call of [requests.get(url, params=..., timeout=...)] or of
    [requests.post(url, json=..., timeout=...)]. *)
Record Request := {
  req_method : http_method;
  req_url : str;
  req_params : dict;
  req_json : option dict;
  req_timeout : Z
}.

(** A [requests.Response]: [json_body] is the outcome of [response.json()]. *)
Record Response := {
  status_code : Z;
  text : str;
  json_body : outcome value
}.

(** *** The client object and the state of a run *)

Record BarkNotification := {
  key : str;
  server_url : str;
  base_url : str
}.

Record world := {
  self : BarkNotification;
  wire : list Request;
  network : list Request -> Request -> outcome Response
}.

Definition M (A : Type) : Type := world -> outcome A * world.

Definition ret {A} (a : A) : M A := fun w => (Return a, w).

Definition raise {A} (e : exn) : M A := fun w => (Raise e, w).

Definition bind {A B} (m : M A) (k : A -> M B) : M B :=
  fun w =>
    match m w with
    | (Return a, w') => k a w'
    | (Raise e, w') => (Raise e, w')
    end.

Notation "x <- m ;; k" := (bind m (fun x => k))
  (at level 61, m at next level, right associativity).

(** [try: m  except <classes> as e: h e]; [h e = None] when no clause
    matches the class of [e], which then propagates. *)
Definition try_except {A} (m : M A) (h : exn -> option (M A)) : M A :=
  fun w =>
    match m w with
    | (Return a, w') => (Return a, w')
    | (Raise e, w') =>
        match h e with
        | Some k => k w'
        | None => (Raise e, w')
        end
    end.

(** An expression that may raise, evaluated inside a method. *)
Definition lift {A} (o : outcome A) : M A := fun w => (o, w).

(** [self.<attr>] reads the client object. *)
Definition get_self : M BarkNotification := fun w => (Return (self w), w).

(** The transport: the request goes on the wire and the environment
    answers with a response or raises. *)
Definition push (r : Request) (w : world) : world :=
  {| self := self w; wire := wire w ++ [r]; network := network w |}.

Definition perform (r : Request) : M Response :=
  fun w => (network w (wire w) r, push r w).

Definition requests_get (url : str) (params : dict) (timeout : Z) : M Response :=
  perform {| req_method := GET; req_url := url; req_params := params;
             req_json := None; req_timeout := timeout |}.

Definition requests_post (url : str) (json : dict) (timeout : Z) : M Response :=
  perform {| req_method := POST; req_url := url; req_params := [];
             req_json := Some json; req_timeout := timeout |}.

(** *** class BarkNotification *)

Definition DEFAULT_SERVER : str := py "https://api.day.app".

(** [x or default]: the default replaces [None] and the empty string. *)
Definition or_default (x : option str) (default : str) : str :=
  match x with
  | Some u => if truth u then u else default
  | None => default
  end.

(** [__init__(self, key, server_url=None)] (lines 47-60).  [key] is an
    option so that a caller passing [None] is covered. *)
Definition __init__ (key : option str) (server_url : option str)
  : outcome BarkNotification :=
  match key with
  | Some k =>
      if negb (truth k)
      then Raise (Bark BarkClientException (py "Bark key cannot be empty")
                    None None)
      else
        let server := or_default server_url DEFAULT_SERVER in
        Return {| key := k; server_url := server;
                  base_url := server ++ py "/" ++ k |}
  | None =>
      Raise (Bark BarkClientException (py "Bark key cannot be empty")
               None None)
  end.

(** The four values that [level] may take. *)
Definition LEVELS : list str :=
  [py "active"; py "timeSensitive"; py "passive"; py "critical"].

Definition invalid_level : exn :=
  Bark BarkClientException
    (py "Invalid level value. Must be one of: active, timeSensitive, passive, critical")
    None None.

Definition empty_body : exn :=
  Bark BarkClientException (py "Notification body cannot be empty") None None.

(** [_build_endpoint(self, body, title, subtitle)] (lines 204-224).  The
    operands of an f-string are evaluated left to right; whatever [quote]
    raises is turned into a [BarkClientException]. *)
Definition _build_endpoint (body : str) (title subtitle : option str)
  : M str :=
  try_except
    (me <- get_self ;;
     if truthy title && truthy subtitle then
       qt <- lift (quote_opt title default_safe) ;;
       qs <- lift (quote_opt subtitle default_safe) ;;
       qb <- lift (quote body default_safe) ;;
       ret (base_url me ++ py "/" ++ qt ++ py "/" ++ qs ++ py "/" ++ qb)
     else if truthy title then
       qt <- lift (quote_opt title default_safe) ;;
       qb <- lift (quote body default_safe) ;;
       ret (base_url me ++ py "/" ++ qt ++ py "/" ++ qb)
     else
       qb <- lift (quote body default_safe) ;;
       ret (base_url me ++ py "/" ++ qb))
    (fun e =>
       Some (raise (Bark BarkClientException
                      (py "Error building endpoint URL: " ++ lib_text e)
                      None None))).

(** [v.get(k, default)]: only a [dict] has the method. *)
Definition dict_method_get (v : value) (k : str) (default : value)
  : outcome value :=
  match v with
  | VDict d =>
      match dict_get d k with
      | Some x => Return x
      | None => Return default
      end
  | _ =>
      Raise (Lib AttributeError
               (py "'" ++ type_name v ++ py "' object has no attribute 'get'"))
  end.

(** [_handle_response(self, response)] (lines 226-264). *)
Definition _handle_response (response : Response) : M value :=
  try_except
    (if negb (Z.eqb (status_code response) 200) then
       raise (Bark BarkServerException
                (py "Server returned error: " ++ text response)
                (Some (status_code response)) None)
     else
       json_response <- lift (json_body response) ;;
       code <- lift (dict_method_get json_response (py "code") VNone) ;;
       if negb (eq_int code 200) then
         message <- lift (dict_method_get json_response (py "message")
                            (VStr (py "Unknown error"))) ;;
         raise (Bark BarkServerException
                  (py "API error: " ++ format message)
                  (Some (status_code response)) (Some json_response))
       else ret json_response)
    (fun e =>
       if is_JSONDecodeError e then
         Some (raise (Bark BarkServerException
                        (py "Invalid JSON response: " ++ text response)
                        (Some (status_code response)) None))
       else None).

(** The two handlers that [send] and [send_post] share. *)
Definition on_RequestException {A} (e : exn) : option (M A) :=
  if is_RequestException e then
    Some (raise (Bark BarkNetworkException
                   (py "Network error: " ++ lib_text e) None None))
  else None.

Definition on_ValueError_TypeError {A} (e : exn) : option (M A) :=
  if is_ValueError e || is_TypeError e then
    Some (raise (Bark BarkClientException
                   (py "Invalid parameter: " ++ lib_text e) None None))
  else None.

(** [if x: params[k] = x] for an [Optional[str]] argument. *)
Definition set_if_truthy (params : dict) (k : str) (x : option str) : dict :=
  match x with
  | Some s => if truth s then dict_set params k (VStr s) else params
  | None => params
  end.

(** Truth value of an [Optional[bool]]. *)
Definition truthy_bool (o : option bool) : bool :=
  match o with Some true => true | _ => false end.

(** The query parameters of [send] (lines 114-132). *)
Definition send_params (url group icon sound : option str) (call : option bool)
  (level : option str) (is_archive : option bool) (copy ciphertext : option str)
  : dict :=
  let params := [] in
  let params := set_if_truthy params (py "url") url in
  let params := set_if_truthy params (py "group") group in
  let params := set_if_truthy params (py "icon") icon in
  let params := set_if_truthy params (py "sound") sound in
  let params :=
    if truthy_bool call
    then dict_set params (py "call")
           (VInt (if truthy_bool call then 1 else 0))
    else params in
  let params := set_if_truthy params (py "level") level in
  let params :=
    match is_archive with
    | Some b => dict_set params (py "isArchive") (VInt (if b then 1 else 0))
    | None => params
    end in
  let params := set_if_truthy params (py "copy") copy in
  let params := set_if_truthy params (py "ciphertext") ciphertext in
  params.

(** [level and level not in [...]] *)
Definition send_level_invalid (level : option str) : bool :=
  match level with
  | Some l => truth l && negb (str_in l LEVELS)
  | None => false
  end.

(** [send(self, body, title, ..., ciphertext)] (lines 62-144). *)
Definition send (body : str) (title subtitle url group icon sound : option str)
  (call : option bool) (level : option str) (is_archive : option bool)
  (copy ciphertext : option str) : M value :=
  if negb (truth body) then raise empty_body
  else if send_level_invalid level then raise invalid_level
  else
    try_except
      (endpoint <- _build_endpoint body title subtitle ;;
       let params :=
         send_params url group icon sound call level is_archive copy
           ciphertext in
       response <- try_except (requests_get endpoint params 10)
                     on_RequestException ;;
       _handle_response response)
      on_ValueError_TypeError.

(** ['level' in kwargs and kwargs['level'] not in [...]] *)
Definition send_post_level_invalid (kwargs : dict) : bool :=
  dict_contains kwargs (py "level") &&
  match dict_get kwargs (py "level") with
  | Some v => negb (value_in_strs v LEVELS)
  | None => false
  end.

(** The payload of [send_post] (lines 179-190). *)
Definition send_post_data (body : str) (title subtitle : option str)
  (kwargs : dict) : dict :=
  let data := [(py "body", VStr body)] in
  let data := set_if_truthy data (py "title") title in
  let data := set_if_truthy data (py "subtitle") subtitle in
  fold_left (fun data kv => dict_set data (fst kv) (snd kv)) kwargs data.

(** [send_post(self, body, title, subtitle, **kwargs)] (lines 146-202). *)
Definition send_post (body : str) (title subtitle : option str)
  (kwargs : dict) : M value :=
  if negb (truth body) then raise empty_body
  else if send_post_level_invalid kwargs then raise invalid_level
  else
    try_except
      (let data := send_post_data body title subtitle kwargs in
       me <- get_self ;;
       response <- try_except (requests_post (base_url me) data 10)
                     on_RequestException ;;
       _handle_response response)
      on_ValueError_TypeError.

(** *** class BarkException *)

(** [str(n)] for an [int]: its decimal digits, after a minus sign when it
    is negative. *)
Definition int_str (n : Z) : str := py (NilZero.string_of_int (Z.to_int n)).

(** [BarkException.__str__] (lines 16-19), on the attributes [message] and
    [status_code] that [__init__] stored: a status code that is [None] or
    [0] is left out. *)
Definition __str__ (message : str) (status_code : option Z) : str :=
  match status_code with
  | Some n =>
      if negb (Z.eqb n 0)
      then message ++ py " (Status code: " ++ int_str n ++ py ")"
      else message
  | None => message
  end.

(** [str(e)] for any exception. *)
Definition str_exn (e : exn) : str :=
  match e with
  | Bark _ message status_code _ => __str__ message status_code
  | Lib _ t => t
  end.

(** Truth value of a value: [None], [False], zero and the empty string,
    list and dict are false. *)
Definition value_truth (v : value) : bool :=
  match v with
  | VNone => false
  | VBool b => b
  | VInt z => negb (Z.eqb z 0)
  | VFloat (Finite q) => negb (Qeq_bool q 0)
  | VFloat _ => true
  | VStr s => truth s
  | VList [] => false
  | VList (_ :: _) => true
  | VDict [] => false
  | VDict (_ :: _) => true
  end.

(** *** The scripts: the usage example of bark_sdk.py and example.py *)

(** What a script does besides talking to the server. *)
Inductive event :=
| Printed (line : str)
| Slept (seconds : Z).

(** The state of a running script: the state of the client and the
    events so far. *)
Record process := {
  sys : world;
  out : list event
}.

Definition Script (A : Type) : Type := process -> outcome A * process.

Definition script_ret {A} (a : A) : Script A := fun p => (Return a, p).

Definition script_bind {A B} (m : Script A) (k : A -> Script B) : Script B :=
  fun p =>
    match m p with
    | (Return a, p') => k a p'
    | (Raise e, p') => (Raise e, p')
    end.

Notation "x <~ m ;; k" := (script_bind m (fun x => k))
  (at level 61, m at next level, right associativity).

Definition script_try {A} (m : Script A) (h : exn -> option (Script A))
  : Script A :=
  fun p =>
    match m p with
    | (Return a, p') => (Return a, p')
    | (Raise e, p') =>
        match h e with
        | Some k => k p'
        | None => (Raise e, p')
        end
    end.

(** [bark = BarkNotification(key, server_url)]: the new object is the
    client of the calls that follow. *)
Definition construct (o : outcome BarkNotification) : Script unit :=
  fun p =>
    match o with
    | Return me =>
        (Return tt,
         {| sys := {| self := me; wire := wire (sys p);
                      network := network (sys p) |};
            out := out p |})
    | Raise e => (Raise e, p)
    end.

(** [bark.send(...)], [bark.send_post(...)] *)
Definition call {A} (m : M A) : Script A :=
  fun p =>
    match m (sys p) with
    | (o, w) => (o, {| sys := w; out := out p |})
    end.

(** What the standard output does with a line, given the events so far:
    [None] when it takes the line, and the class and text of the exception
    when the write raises: a UnicodeEncodeError for a character that the
    encoding of the stream lacks (a lone surrogate has none in UTF-8), an
    OSError for a closed pipe. *)
Variable stdout_write : list event -> str -> option (lib_class * str).

(** [print(line)]: the line is written, or the write raises and nothing
    is printed. *)
Definition print (line : str) : Script unit :=
  fun p =>
    match stdout_write (out p) line with
    | Some (c, t) => (Raise (Lib c t), p)
    | None =>
        (Return tt, {| sys := sys p; out := out p ++ [Printed line] |})
    end.

(** [time.sleep(seconds)] *)
Definition sleep (seconds : Z) : Script unit :=
  fun p => (Return tt, {| sys := sys p; out := out p ++ [Slept seconds] |}).

(** The line feed of the literals ["...\n..."]. *)
Definition LF : str := [10%N].

(** The block under [if __name__ == "__main__":] of bark_sdk.py
    (lines 268-297): the statements under [try], the [except] clauses, and
    the whole. *)
Definition usage_body : Script unit :=
  _ <~ construct (__init__ (Some (py "YOUR_BARK_KEY")) None) ;;
  response <~ call (send (py "Hello from Python SDK!") None None None None
                      None None None None None None None) ;;
  _ <~ print (format response) ;;
  response <~ call (send
                      (py "This is the main notification content." ++ LF ++
                       py "With multiple lines!")
                      (Some (py "Notification Title"))
                      (Some (py "Notification Subtitle"))
                      (Some (py "https://example.com"))
                      (Some (py "example-notifications"))
                      None (Some (py "alarm")) None
                      (Some (py "timeSensitive")) None None None) ;;
  print (format response).

Definition usage_except (e : exn) : option (Script unit) :=
  match e with
  | Bark BarkClientException _ _ _ =>
      Some (print (py "Client error: " ++ str_exn e))
  | Bark BarkNetworkException _ _ _ =>
      Some (print (py "Network error: " ++ str_exn e))
  | Bark BarkServerException _ _ response =>
      Some (_ <~ print (py "Server error: " ++ str_exn e) ;;
            match response with
            | Some details =>
                if value_truth details
                then print (py "Response details: " ++ format details)
                else script_ret tt
            | None => script_ret tt
            end)
  | Lib _ _ =>
      Some (print (py "Unexpected error: " ++ str_exn e))
  end.

Definition usage_example : Script unit := script_try usage_body usage_except.

(** [main()] of example.py (lines 11-58). *)
Definition main : Script unit :=
  _ <~ construct (__init__ (Some (py "YOUR_BARK_KEY")) None) ;;
  _ <~ print (py "Sending simple notification...") ;;
  response <~ call (send (py "Hello from Python SDK!") None None None None
                      None None None None None None None) ;;
  _ <~ print (py "Response: " ++ format response ++ LF) ;;
  _ <~ sleep 1 ;;
  _ <~ print (py "Sending notification with title...") ;;
  response <~ call (send (py "This is a test notification from Python")
                      (Some (py "Python Example")) None None None None None
                      None None None None None) ;;
  _ <~ print (py "Response: " ++ format response ++ LF) ;;
  _ <~ sleep 1 ;;
  _ <~ print (py "Sending notification with all parameters...") ;;
  response <~ call (send
                      (py "This is a comprehensive test notification." ++ LF ++
                       py "It includes multiple lines!")
                      (Some (py "Full Example"))
                      (Some (py "With All Parameters"))
                      (Some (py "https://github.com/Finb/Bark"))
                      (Some (py "python-examples"))
                      None (Some (py "minuet")) None
                      (Some (py "timeSensitive")) None None None) ;;
  _ <~ print (py "Response: " ++ format response ++ LF) ;;
  _ <~ sleep 1 ;;
  _ <~ print (py "Sending notification using POST...") ;;
  response <~ call (send_post
                      (py "This notification was sent using a POST request")
                      (Some (py "POST Request")) None
                      [(py "group", VStr (py "python-examples"));
                       (py "sound", VStr (py "bell"))]) ;;
  print (py "Response: " ++ format response).

(** *** The percent-encoding of the specification *)

(** The unreserved characters of a URL: letters, digits and [- . _ ~]. *)
Definition unreserved (b : N) : bool :=
  (((65 <=? b) && (b <=? 90)) || ((97 <=? b) && (b <=? 122)) ||
   ((48 <=? b) && (b <=? 57)) ||
   (b =? 45) || (b =? 46) || (b =? 95) || (b =? 126))%N.

(** The upper-case hexadecimal digit of a value below 16. *)
Definition hex_upper (n : N) : N :=
  nth (N.to_nat n) (py "0123456789ABCDEF") 0%N.

(** An octet stands for itself when it is unreserved and is written [%XX]
    otherwise: the slash is escaped like any other reserved character. *)
Definition escape_octet (b : N) : str :=
  if unreserved b then [b]
  else [37%N; hex_upper (b / 16)%N; hex_upper (b mod 16)%N].

(** The UTF-8 form of a code point, by its arithmetic: one octet below
    128, else a leading octet and continuation octets of six bits each. *)
Definition utf8_octets (c : N) : list N :=
  if (c <? 128)%N then [c]
  else if (c <? 2048)%N then [192 + c / 64; 128 + c mod 64]%N
  else if (c <? 65536)%N then
    [224 + c / 4096; 128 + (c / 64) mod 64; 128 + c mod 64]%N
  else
    [240 + c / 262144; 128 + (c / 4096) mod 64; 128 + (c / 64) mod 64;
     128 + c mod 64]%N.

(** [encode] of the specification: every octet of the UTF-8 form of the
    text, escaped unless unreserved. *)
Definition encode (s : str) : str :=
  flat_map escape_octet (flat_map utf8_octets s).

(** The octets below 256, for checks that run over all of them. *)
Definition octets : list N := map N.of_nat (seq 0 256).

(** A segment of Unicode text without a slash: every code point is at most
    0x10FFFF, no surrogate (0xD800 to 0xDFFF), and not ['/'] (47). *)
Definition plain_segment (s : str) : bool :=
  forallb (fun c => (c <=? 0x10FFFF) &&
                    negb ((0xD800 <=? c) && (c <=? 0xDFFF)) &&
                    negb (c =? 47))%N s.

(** A string with a lone surrogate: a code point from 0xD800 to 0xDFFF.
    Such a string is no Unicode text and has no UTF-8 form. *)
Definition lone_surrogate (s : str) : bool :=
  existsb (fun c => (0xD800 <=? c) && (c <=? 0xDFFF))%N s.

(** *** Notions used by the statements *)

(** [me.key], for statements that have an argument named [key]. *)
Definition key_of (me : BarkNotification) : str := key me.

(** [me.server_url], for statements that have an argument of that name. *)
Definition server_of (me : BarkNotification) : str := server_url me.

(** [json_response.get('code') != 200] on a parsed object. *)
Definition code_is_200 (d : dict) : bool :=
  match dict_get d (py "code") with
  | Some c => eq_int c 200
  | None => false
  end.

(** The text that the handler takes from the ['message'] field. *)
Definition message_of (d : dict) : str :=
  match dict_get d (py "message") with
  | Some m => format m
  | None => py "Unknown error"
  end.

(** A string is Unicode text when it holds no lone surrogate. *)
Definition has_surrogate (s : str) : bool := existsb is_surrogate s.

(** The percent-encoding that [quote] computes with its default [safe]:
    every octet of the UTF-8 encoding that is not a letter, a digit or one
    of [_.-~/] becomes [%XX]. *)
Definition percent_encode (s : str) : str :=
  flat_map (quoter (py "/")) (flat_map utf8_char s).

(** A call of a public method of the client. *)
Inductive invocation :=
| Send (body : str) (title subtitle url group icon sound : option str)
       (call : option bool) (level : option str) (is_archive : option bool)
       (copy ciphertext : option str)
| SendPost (body : str) (title subtitle : option str) (kwargs : dict).

Definition invoke (c : invocation) : M value :=
  match c with
  | Send body title subtitle url group icon sound call level is_archive
      copy ciphertext =>
      send body title subtitle url group icon sound call level is_archive
        copy ciphertext
  | SendPost body title subtitle kwargs =>
      send_post body title subtitle kwargs
  end.

(** The state after a sequence of calls, whatever each of them gives. *)
Fixpoint invoke_all (cs : list invocation) (w : world) : world :=
  match cs with
  | [] => w
  | c :: cs' => invoke_all cs' (snd (invoke c w))
  end.

(** A state that holds the client [me] and nothing else: no request was
    sent and the network is down. *)
Definition blank (me : BarkNotification) : world :=
  {| self := me; wire := [];
     network := fun _ _ => Raise (Lib OtherException []) |}.

(** The request of [requests.get(endpoint, params=params, timeout=10)]. *)
Definition get_request (endpoint : str) (params : dict) : Request :=
  {| req_method := GET; req_url := endpoint; req_params := params;
     req_json := None; req_timeout := 10 |}.

(** The request of [requests.post(self.base_url, json=data, timeout=10)]. *)
Definition post_request (me : BarkNotification) (data : dict) : Request :=
  {| req_method := POST; req_url := base_url me; req_params := [];
     req_json := Some data; req_timeout := 10 |}.

(** The requests that a call made on the client [me] puts on the wire:
    none when the arguments are refused or the endpoint cannot be built,
    one otherwise. *)
Definition requests_of (c : invocation) (me : BarkNotification)
  : list Request :=
  match c with
  | Send body title subtitle url group icon sound call level is_archive
      copy ciphertext =>
      if truth body && negb (send_level_invalid level) then
        match fst (_build_endpoint body title subtitle (blank me)) with
        | Return endpoint =>
            [get_request endpoint
               (send_params url group icon sound call level is_archive copy
                  ciphertext)]
        | Raise _ => []
        end
      else []
  | SendPost body title subtitle kwargs =>
      if truth body && negb (send_post_level_invalid kwargs) then
        [post_request me (send_post_data body title subtitle kwargs)]
      else []
  end.

(** The state [w] with the requests [rs] added to the wire. *)
Definition sent (rs : list Request) (w : world) : world :=
  {| self := self w; wire := wire w ++ rs; network := network w |}.

(** *** Notions for the further properties *)

(** What both [send] and [send_post] do once the request is built
    (lines 134-144 and 192-202): the transport under the handler of
    [RequestException], then the response handler, all under the handler
    of [ValueError] and [TypeError]. *)
Definition transact (r : Request) : M value :=
  try_except
    (response <- try_except (perform r) on_RequestException ;;
     _handle_response response)
    on_ValueError_TypeError.

(** What [except (ValueError, TypeError) as e] makes of an exception. *)
Definition reraise (e : exn) : exn :=
  if is_ValueError e || is_TypeError e
  then Bark BarkClientException (py "Invalid parameter: " ++ lib_text e)
         None None
  else e.

Definition is_dict (v : value) : bool :=
  match v with VDict _ => true | _ => false end.

(** The environment keeps to the documented interfaces in the state [w]:
    the transport returns or raises a [RequestException], and
    [response.json()] returns an object or raises a [JSONDecodeError]. *)
Definition well_behaved (w : world) : Prop :=
  forall r,
    match network w (wire w) r with
    | Raise e => is_RequestException e = true
    | Return response =>
        match json_body response with
        | Return v => is_dict v = true
        | Raise e => is_JSONDecodeError e = true
        end
    end.

(** The entry that [if x: d[k] = x] adds for an [Optional[str]]. *)
Definition opt_item (k : str) (x : option str) : dict :=
  match x with
  | Some s => if truth s then [(k, VStr s)] else []
  | None => []
  end.

(** The strings that [_build_endpoint] encodes, in the order in which the
    f-string evaluates them. *)
Definition segments (body : str) (title subtitle : option str) : list str :=
  match title, subtitle with
  | Some t, Some s =>
      if truth t && truth s then [t; s; body]
      else if truth t then [t; body] else [body]
  | Some t, None => if truth t then [t; body] else [body]
  | None, _ => [body]
  end.

(** The path that the segments give: each one encoded, after a slash. *)
Definition path_of (segs : list str) : str :=
  flat_map (fun seg => py "/" ++ percent_encode seg) segs.

(** The levels that [send] lets through. *)
Definition level_allowed (level : option str) : Prop :=
  level = None \/ level = Some [] \/ exists l, level = Some l /\ In l LEVELS.

(** The keyword arguments whose [level] the check of [send_post] lets
    through. *)
Definition post_level_allowed (kwargs : dict) : Prop :=
  dict_get kwargs (py "level") = None \/
  exists l, dict_get kwargs (py "level") = Some (VStr l) /\ In l LEVELS.

(** The characters that a quoted segment is made of. *)
Definition URL_SAFE : list N := _ALWAYS_SAFE ++ py "/%".

(** The client of the two scripts, and the requests that they send. *)
Definition script_client : BarkNotification :=
  {| key := py "YOUR_BARK_KEY"; server_url := DEFAULT_SERVER;
     base_url := DEFAULT_SERVER ++ py "/" ++ py "YOUR_BARK_KEY" |}.

(** The state of a script once it has made its client. *)
Definition started (p : process) : world :=
  {| self := script_client; wire := wire (sys p);
     network := network (sys p) |}.

Definition hello_request : Request :=
  get_request
    (py "https://api.day.app/YOUR_BARK_KEY/Hello%20from%20Python%20SDK%21") [].

Definition usage_request : Request :=
  get_request
    (py "https://api.day.app/YOUR_BARK_KEY/Notification%20Title/Notification%20Subtitle/This%20is%20the%20main%20notification%20content.%0AWith%20multiple%20lines%21")
    [(py "url", VStr (py "https://example.com"));
     (py "group", VStr (py "example-notifications"));
     (py "sound", VStr (py "alarm"));
     (py "level", VStr (py "timeSensitive"))].

Definition titled_request : Request :=
  get_request
    (py "https://api.day.app/YOUR_BARK_KEY/Python%20Example/This%20is%20a%20test%20notification%20from%20Python")
    [].

Definition full_request : Request :=
  get_request
    (py "https://api.day.app/YOUR_BARK_KEY/Full%20Example/With%20All%20Parameters/This%20is%20a%20comprehensive%20test%20notification.%0AIt%20includes%20multiple%20lines%21")
    [(py "url", VStr (py "https://github.com/Finb/Bark"));
     (py "group", VStr (py "python-examples"));
     (py "sound", VStr (py "minuet"));
     (py "level", VStr (py "timeSensitive"))].

Definition posted_request : Request :=
  {| req_method := POST; req_url := py "https://api.day.app/YOUR_BARK_KEY";
     req_params := [];
     req_json :=
       Some [(py "body",
              VStr (py "This notification was sent using a POST request"));
             (py "title", VStr (py "POST Request"));
             (py "group", VStr (py "python-examples"));
             (py "sound", VStr (py "bell"))];
     req_timeout := 10 |}.

(** An answer that makes a call return: status 200 and an object whose
    ['code'] equals 200. *)
Definition accepted (a : outcome Response) : Prop :=
  exists response d,
    a = Return response /\ status_code response = 200%Z /\
    json_body response = Return (VDict d) /\ code_is_200 d = true.

Definition is_printed (e : event) : bool :=
  match e with Printed _ => true | Slept _ => false end.

(** The four requests of example.py, in the order of the script. *)
Definition example_requests : list Request :=
  [hello_request; titled_request; full_request; posted_request].

(** The seconds slept and the lines printed in a list of events. *)
Fixpoint slept (evs : list event) : Z :=
  match evs with
  | [] => 0
  | Slept n :: evs' => n + slept evs'
  | Printed _ :: evs' => slept evs'
  end.

Definition printed (evs : list event) : nat :=
  List.length (filter is_printed evs).

(** The standard output takes every line. *)
Definition stdout_open : Prop :=
  forall evs line, stdout_write evs line = None.

(** The words with which the [except] clauses of the usage example start
    their lines. *)
Definition handler_prefixes : list str :=
  [py "Client error: "; py "Network error: "; py "Server error: ";
   py "Response details: "; py "Unexpected error: "].

(** The state [w] after the requests [rs] went on the wire one by one. *)
Definition pushed (rs : list Request) (w : world) : world :=
  fold_left (fun w' r => push r w') rs w.

(** The state in which example.py makes call number [k] (from 0) when the
    calls before it returned, the request of that call, and the answer of
    the network to it. *)
Definition example_state (p : process) (k : nat) : world :=
  pushed (firstn k example_requests) (started p).

(** The four calls of example.py, in the order of the script. *)
Definition example_calls : list invocation :=
  [Send (py "Hello from Python SDK!") None None None None None None None
     None None None None;
   Send (py "This is a test notification from Python")
     (Some (py "Python Example")) None None None None None None None None
     None None;
   Send (py "This is a comprehensive test notification." ++ LF ++
         py "It includes multiple lines!")
     (Some (py "Full Example")) (Some (py "With All Parameters"))
     (Some (py "https://github.com/Finb/Bark")) (Some (py "python-examples"))
     None (Some (py "minuet")) None (Some (py "timeSensitive")) None None
     None;
   SendPost (py "This notification was sent using a POST request")
     (Some (py "POST Request")) None
     [(py "group", VStr (py "python-examples"));
      (py "sound", VStr (py "bell"))]].

Definition example_call (k : nat) : invocation :=
  nth k example_calls (SendPost [] None None []).

Definition example_request (k : nat) : Request :=
  nth k example_requests hello_request.

Definition example_answer (p : process) (k : nat) : outcome Response :=
  network (example_state p k) (wire (example_state p k)) (example_request k).

(** *** Concrete values for the runs below *)

(** A client with key "K" on the default server, in a state where nothing
    was sent yet. *)
Definition demo_client : BarkNotification :=
  {| key := py "K"; server_url := DEFAULT_SERVER;
     base_url := DEFAULT_SERVER ++ py "/" ++ py "K" |}.

Definition demo_world : world := blank demo_client.

(** The state of [demo_client] in which the network gives the same answer
    to every request. *)
Definition answering (a : outcome Response) : world :=
  {| self := demo_client; wire := []; network := fun _ _ => a |}.

(** An interpreter text that is left blank. *)
Definition no_text {A : Type} : A -> str := fun _ => [].

(** HTTP 500 with a body that is no JSON; HTTP 200 with such a body. *)
Definition response_500 : Response :=
  {| status_code := 500; text := py "Internal Server Error";
     json_body := Raise (Lib JSONDecodeError (py "Expecting value")) |}.

Definition response_not_json : Response :=
  {| status_code := 200; text := py "<html>";
     json_body := Raise (Lib JSONDecodeError (py "Expecting value")) |}.

(** The parsed bodies [{"code": 200, "message": "ok"}] and
    [{"code": 400, "message": "bad key"}], each in a response of status 200. *)
Definition body_ok : dict :=
  [(py "code", VInt 200); (py "message", VStr (py "ok"))].

Definition body_bad_key : dict :=
  [(py "code", VInt 400); (py "message", VStr (py "bad key"))].

Definition response_of (d : dict) : Response :=
  {| status_code := 200; text := py "{...}"; json_body := Return (VDict d) |}.

(** A call with body "E" and nothing else, by each method, and the
    request of the first. *)
Definition send_E : invocation :=
  Send (py "E") None None None None None None None None None None None.

Definition send_post_E : invocation := SendPost (py "E") None None [].

Definition request_E : Request :=
  get_request (py "https://api.day.app/K/E") [].

(** A response of status 200 whose body parses to the empty list. *)
Definition response_list : Response :=
  {| status_code := 200; text := py "[]"; json_body := Return (VList []) |}.

(** A response of status 200 whose body is a number of 4301 digits:
    [response.json()] raises the ValueError of the limit on the digits of
    an [int], which is no JSONDecodeError. *)
Definition response_huge_number : Response :=
  {| status_code := 200; text := py "1111111111...";
     json_body :=
       Raise (Lib ValueError
                (py "Exceeds the limit (4300 digits) for integer string conversion: value has 4301 digits; use sys.set_int_max_str_digits() to increase the limit")) |}.

(** A standard output that takes every line, and one that has no
    encoding for what it is given. *)
Definition stdout_fine : list event -> str -> option (lib_class * str) :=
  fun _ _ => None.

Definition stdout_ascii : list event -> str -> option (lib_class * str) :=
  fun _ _ =>
    Some (UnicodeEncodeError,
          py "'ascii' codec can't encode character: ordinal not in range(128)").

(** A script that starts where the network accepts the first request and
    answers every later one with HTTP 500. *)
Definition second_refused : process :=
  {| sys :=
       {| self := demo_client; wire := [];
          network := fun history _ =>
                       match history with
                       | [] => Return (response_of body_ok)
                       | _ :: _ => Return response_500
                       end |};
     out := [] |}.

(** ** Properties *)

(** *** The monad and the response handler *)

Ltac run := unfold bind, ret, raise, lift, try_except, get_self; simpl.

Lemma handle_response_world (response : Response) (w : world) :
  snd (_handle_response response w) = w.
Proof.
  unfold _handle_response. run.
  destruct (Z.eqb (status_code response) 200); simpl; [| reflexivity].
  destruct (json_body response) as [v | e]; simpl.
  - destruct v; simpl; try reflexivity.
    destruct (dict_get d (py "code")) as [c |]; simpl.
    + destruct (eq_int c 200); simpl; [reflexivity |].
      destruct (dict_get d (py "message")); reflexivity.
    + destruct (dict_get d (py "message")); reflexivity.
  - destruct (is_JSONDecodeError e); reflexivity.
Qed.

(** C5: a response whose status is not 200 makes the handler
    raise the BarkServerException "Server returned error: <text>", and a
    response of status 200 whose body fails to parse with a
    json.JSONDecodeError makes it raise the BarkServerException
    "Invalid JSON response: <text>"; both carry the HTTP status and the raw
    text of the response, and no parsed body.  A failure of the parser that
    is no JSONDecodeError is not caught: the handler raises that exception
    itself.  In none of these cases is anything returned. *)
Theorem handle_response_server_error (response : Response) (w : world) :
  (status_code response <> 200%Z ->
   _handle_response response w =
   (Raise (Bark BarkServerException
             (py "Server returned error: " ++ text response)
             (Some (status_code response)) None), w)) /\
  (forall t,
     status_code response = 200%Z ->
     json_body response = Raise (Lib JSONDecodeError t) ->
     _handle_response response w =
     (Raise (Bark BarkServerException
               (py "Invalid JSON response: " ++ text response)
               (Some 200%Z) None), w)) /\
  (forall e,
     status_code response = 200%Z ->
     json_body response = Raise e ->
     (forall t, e <> Lib JSONDecodeError t) ->
     _handle_response response w = (Raise e, w)).
Proof.
  unfold _handle_response. run. split; [| split].
  - intros H. now destruct (Z.eqb_spec (status_code response) 200).
  - intros t S J. now rewrite S, J.
  - intros e S J H. rewrite S, J. simpl.
    destruct e as [c m st body | c t]; [reflexivity |].
    destruct c; try reflexivity. now destruct (H t).
Qed.

(** C6: for a response with status 200 whose body parses to a JSON
    object, a ['code'] other than 200 (or none) raises a BarkServerException
    with the HTTP status, the text of the ['message'] field (or
    "Unknown error") and the parsed object attached; a ['code'] equal to
    200 returns the parsed object as it is. *)
Theorem handle_response_parsed (response : Response) (d : dict) (w : world) :
  status_code response = 200%Z ->
  json_body response = Return (VDict d) ->
  _handle_response response w =
  if code_is_200 d then (Return (VDict d), w)
  else (Raise (Bark BarkServerException (py "API error: " ++ message_of d)
                 (Some 200%Z) (Some (VDict d))), w).
Proof.
  intros S J. unfold _handle_response, code_is_200, message_of. run.
  rewrite S, J. simpl.
  destruct (dict_get d (py "code")) as [c |]; simpl.
  - destruct (eq_int c 200); simpl; [reflexivity |].
    destruct (dict_get d (py "message")); reflexivity.
  - destruct (dict_get d (py "message")); reflexivity.
Qed.

(** *** Dictionaries *)

Lemma str_eqb_eq (a b : str) : str_eqb a b = true <-> a = b.
Proof.
  unfold str_eqb. destruct (list_eq_dec N.eq_dec a b); split; congruence.
Qed.

Lemma str_eqb_refl (a : str) : str_eqb a a = true.
Proof. now apply str_eqb_eq. Qed.

Lemma dict_get_set (d : dict) (k k' : str) (v : value) :
  dict_get (dict_set d k v) k' =
  if str_eqb k k' then Some v else dict_get d k'.
Proof.
  induction d as [| [k0 v0] d IH]; simpl.
  - reflexivity.
  - destruct (str_eqb k0 k) eqn:E; simpl.
    + apply str_eqb_eq in E. subst k0.
      destruct (str_eqb k k'); reflexivity.
    + rewrite IH. destruct (str_eqb k0 k') eqn:E1; [| reflexivity].
      destruct (str_eqb k k') eqn:E2; [| reflexivity].
      apply str_eqb_eq in E1, E2. subst.
      rewrite str_eqb_refl in E. discriminate.
Qed.

Lemma dict_contains_set (d : dict) (k k' : str) (v : value) :
  dict_contains (dict_set d k v) k' = str_eqb k k' || dict_contains d k'.
Proof.
  unfold dict_contains.
  induction d as [| [k0 v0] d IH]; simpl.
  - reflexivity.
  - destruct (str_eqb k0 k) eqn:E; simpl.
    + apply str_eqb_eq in E. subst k0.
      destruct (str_eqb k k'); reflexivity.
    + rewrite IH.
      destruct (str_eqb k0 k'), (str_eqb k k'); reflexivity.
Qed.

Lemma dict_get_set_if_truthy (d : dict) (k k' : str) (x : option str) :
  str_eqb k k' = false ->
  dict_get (set_if_truthy d k x) k' = dict_get d k'.
Proof.
  intros E. unfold set_if_truthy.
  destruct x as [s |]; [| reflexivity].
  destruct (truth s); [| reflexivity].
  now rewrite dict_get_set, E.
Qed.

Lemma dict_contains_set_if_truthy (d : dict) (k k' : str) (x : option str) :
  str_eqb k k' = false ->
  dict_contains (set_if_truthy d k x) k' = dict_contains d k'.
Proof.
  intros E. unfold set_if_truthy.
  destruct x as [s |]; [| reflexivity].
  destruct (truth s); [| reflexivity].
  now rewrite dict_contains_set, E.
Qed.

(** No query parameter of [send] is named [subtitle] (or [title], [body]). *)
Lemma send_params_no_subtitle url group icon sound call level is_archive
  copy ciphertext :
  dict_contains
    (send_params url group icon sound call level is_archive copy ciphertext)
    (py "subtitle") = false.
Proof.
  unfold send_params.
  rewrite !dict_contains_set_if_truthy by reflexivity.
  destruct is_archive as [b |].
  - rewrite dict_contains_set, dict_contains_set_if_truthy by reflexivity.
    destruct (truthy_bool call).
    + rewrite dict_contains_set, !dict_contains_set_if_truthy by reflexivity.
      reflexivity.
    + rewrite !dict_contains_set_if_truthy by reflexivity. reflexivity.
  - rewrite dict_contains_set_if_truthy by reflexivity.
    destruct (truthy_bool call).
    + rewrite dict_contains_set, !dict_contains_set_if_truthy by reflexivity.
      reflexivity.
    + rewrite !dict_contains_set_if_truthy by reflexivity. reflexivity.
Qed.

(** *** quote *)

Lemma flat_map_quoter_safe (safe : bytes) (bs : bytes) :
  forallb (fun b => byte_in b (_ALWAYS_SAFE ++ safe)) bs = true ->
  flat_map (quoter safe) bs = bs.
Proof.
  induction bs as [| b bs IH]; [reflexivity |].
  cbn [forallb flat_map]. intros H. apply andb_true_iff in H as [Hb Hbs].
  unfold quoter at 1. rewrite Hb. cbn [app]. now rewrite IH.
Qed.

(** The two shortcuts of [quote_from_bytes] agree with its general path. *)
Lemma quote_from_bytes_flat_map (bs : bytes) (safe : str) :
  quote_from_bytes bs safe =
  flat_map (quoter (filter (fun c => (c <? 128)%N) safe)) bs.
Proof.
  unfold quote_from_bytes. destruct bs as [| b bs]; [reflexivity |].
  destruct (forallb _ (b :: bs)) eqn:E; [| reflexivity].
  symmetry. now apply flat_map_quoter_safe.
Qed.

Lemma quote_text (s : str) :
  has_surrogate s = false ->
  quote s default_safe = Return (percent_encode s).
Proof.
  intros H. unfold quote, encode_utf8. fold (has_surrogate s). rewrite H.
  destruct s as [| c s]; [reflexivity |].
  cbn [truth negb]. now rewrite quote_from_bytes_flat_map.
Qed.

(** *** The effect of a method on the state *)

Lemma try_except_ValueError_TypeError_world {A} (m : M A) (w : world) :
  snd (try_except m on_ValueError_TypeError w) = snd (m w).
Proof.
  unfold try_except, on_ValueError_TypeError.
  destruct (m w) as [[a | e] w']; [reflexivity |].
  destruct (is_ValueError e || is_TypeError e); reflexivity.
Qed.

Lemma try_except_RequestException_world {A} (m : M A) (w : world) :
  snd (try_except m on_RequestException w) = snd (m w).
Proof.
  unfold try_except, on_RequestException.
  destruct (m w) as [[a | e] w']; [reflexivity |].
  destruct (is_RequestException e); reflexivity.
Qed.

Lemma bind_world {A B} (m : M A) (k : A -> M B) (w : world) :
  snd (bind m k w) =
  match fst (m w) with
  | Return a => snd (k a (snd (m w)))
  | Raise _ => snd (m w)
  end.
Proof. unfold bind. now destruct (m w) as [[a | e] w']. Qed.

(** Once the request is on the wire, the response handler adds nothing. *)
Lemma perform_then_handle (r : Request) (w : world) :
  snd (bind (try_except (perform r) on_RequestException) _handle_response w)
  = push r w.
Proof.
  unfold bind.
  pose proof (try_except_RequestException_world (perform r) w) as H.
  destruct (try_except (perform r) on_RequestException w) as [[resp | e] w'].
  - simpl in H. subst w'. apply handle_response_world.
  - exact H.
Qed.

Lemma build_endpoint_reads_self (body : str) (title subtitle : option str)
  (w : world) :
  _build_endpoint body title subtitle w =
  (fst (_build_endpoint body title subtitle (blank (self w))), w).
Proof.
  unfold _build_endpoint. run.
  destruct (truthy title && truthy subtitle).
  - destruct (quote_opt title default_safe); simpl; [| reflexivity].
    destruct (quote_opt subtitle default_safe); simpl; [| reflexivity].
    destruct (quote body default_safe); reflexivity.
  - destruct (truthy title).
    + destruct (quote_opt title default_safe); simpl; [| reflexivity].
      destruct (quote body default_safe); reflexivity.
    + destruct (quote body default_safe); reflexivity.
Qed.

Lemma world_eta (w : world) :
  {| self := self w; wire := wire w; network := network w |} = w.
Proof. now destruct w. Qed.

Lemma sent_nil (w : world) : sent [] w = w.
Proof. unfold sent. rewrite app_nil_r. apply world_eta. Qed.

(** What a call does to the state: the client and the network stay, and
    the wire grows by the requests of the call. *)
Lemma invoke_world (c : invocation) (w : world) :
  snd (invoke c w) = sent (requests_of c (self w)) w.
Proof.
  destruct c as [body title subtitle url group icon sound call level
                   is_archive copy ciphertext
                | body title subtitle kwargs]; simpl.
  - unfold send.
    destruct (truth body); simpl; [| now rewrite sent_nil].
    destruct (send_level_invalid level); simpl; [now rewrite sent_nil |].
    rewrite try_except_ValueError_TypeError_world, bind_world.
    rewrite build_endpoint_reads_self. cbn [fst snd].
    destruct (fst (_build_endpoint body title subtitle (blank (self w))))
      as [endpoint | e].
    + apply perform_then_handle.
    + now rewrite sent_nil.
  - unfold send_post.
    destruct (truth body); simpl; [| now rewrite sent_nil].
    destruct (send_post_level_invalid kwargs); simpl; [now rewrite sent_nil |].
    rewrite try_except_ValueError_TypeError_world, bind_world.
    unfold get_self. cbn [fst snd]. apply perform_then_handle.
Qed.

Lemma invoke_all_self (cs : list invocation) (w : world) :
  self (invoke_all cs w) = self w.
Proof.
  revert w. induction cs as [| c cs IH]; intros w; simpl.
  - reflexivity.
  - rewrite IH, invoke_world. reflexivity.
Qed.

(** *** Construction and validation *)

(** C7: constructing a client with an absent ([None]) or empty key raises
    the BarkClientException "Bark key cannot be empty", whatever the server
    URL.  With a non-empty key [k] it returns a client that holds [k] and
    whose base address is the server URL, a slash, and [k]: the server URL
    is the one the caller gave when it is non-empty, and
    "https://api.day.app" when none or an empty one was given.  No
    sequence of calls of [send] and [send_post] changes that client. *)
Theorem init_key (key server_url : option str) :
  (truthy key = false ->
   __init__ key server_url =
   Raise (Bark BarkClientException (py "Bark key cannot be empty") None None))
  /\
  (forall k, key = Some k -> k <> [] ->
   exists me,
     __init__ key server_url = Return me /\
     key_of me = k /\
     (forall u, server_url = Some u -> u <> [] ->
      server_of me = u /\ base_url me = u ++ py "/" ++ k) /\
     (server_url = None \/ server_url = Some [] ->
      server_of me = py "https://api.day.app" /\
      base_url me = py "https://api.day.app" ++ py "/" ++ k) /\
     forall cs w, self w = me -> self (invoke_all cs w) = me).
Proof.
  split.
  - destruct key as [[| c k] |]; simpl; intros H;
      [reflexivity | discriminate | reflexivity].
  - intros k -> Hk. destruct k as [| c k]; [contradiction |].
    eexists. split; [reflexivity |]. split; [reflexivity |].
    split.
    { intros u -> U. destruct u; [contradiction | split; reflexivity]. }
    split.
    { intros [-> | ->]; split; reflexivity. }
    intros cs w <-. now rewrite invoke_all_self.
Qed.

(** C8: whatever the other arguments are, [send] with an empty body
    raises the BarkClientException "Notification body cannot be empty" and
    leaves the state as it was: nothing is put on the wire. *)
Theorem send_empty_body body title subtitle url group icon sound call level
  is_archive copy ciphertext (w : world) :
  body = [] ->
  send body title subtitle url group icon sound call level is_archive copy
    ciphertext w
  = (Raise (Bark BarkClientException (py "Notification body cannot be empty")
              None None), w) /\
  wire (snd (send body title subtitle url group icon sound call level
               is_archive copy ciphertext w)) = wire w.
Proof.
  intros ->. unfold send. cbn [truth negb].
  split; reflexivity.
Qed.

(** C9: the client object is the same after any call and after any
    sequence of calls of [send] and [send_post], whatever their arguments
    and outcomes; and a call repeated puts on the wire, the second time,
    the very requests of the first. *)
Theorem client_immutable (c : invocation) (cs : list invocation) (w : world) :
  self (snd (invoke c w)) = self w /\
  self (invoke_all cs w) = self w /\
  exists rs,
    wire (snd (invoke c w)) = wire w ++ rs /\
    wire (invoke_all [c; c] w) = (wire w ++ rs) ++ rs.
Proof.
  split; [now rewrite invoke_world |].
  split; [apply invoke_all_self |].
  exists (requests_of c (self w)). split.
  - now rewrite invoke_world.
  - simpl. now rewrite !invoke_world.
Qed.

(** *** The endpoint of [send] *)

Lemma build_endpoint_both (body t s : str) (w : world) :
  truth t = true -> truth s = true ->
  has_surrogate t = false -> has_surrogate s = false ->
  has_surrogate body = false ->
  _build_endpoint body (Some t) (Some s) w =
  (Return (base_url (self w) ++ py "/" ++ percent_encode t ++ py "/" ++
           percent_encode s ++ py "/" ++ percent_encode body), w).
Proof.
  intros Tt Ts Ht Hs Hb. unfold _build_endpoint, quote_opt. run.
  rewrite Tt, Ts, !quote_text by assumption. reflexivity.
Qed.

Lemma build_endpoint_title (body t : str) (subtitle : option str) (w : world) :
  truth t = true -> truthy subtitle = false ->
  has_surrogate t = false -> has_surrogate body = false ->
  _build_endpoint body (Some t) subtitle w =
  (Return (base_url (self w) ++ py "/" ++ percent_encode t ++ py "/" ++
           percent_encode body), w).
Proof.
  intros Tt Ts Ht Hb. unfold _build_endpoint, quote_opt. run.
  rewrite Tt, Ts, !quote_text by assumption. reflexivity.
Qed.

(** Without a title the subtitle is not looked at. *)
Lemma build_endpoint_no_title (body : str) (title subtitle : option str) :
  truthy title = false ->
  _build_endpoint body title subtitle = _build_endpoint body title None.
Proof. intros H. unfold _build_endpoint. rewrite H. reflexivity. Qed.

Lemma build_endpoint_body (body : str) (title subtitle : option str)
  (w : world) :
  truthy title = false ->
  _build_endpoint body title subtitle w =
  match quote body default_safe with
  | Return qb => (Return (base_url (self w) ++ py "/" ++ qb), w)
  | Raise e =>
      (Raise (Bark BarkClientException
                (py "Error building endpoint URL: " ++ lib_text e) None None),
       w)
  end.
Proof.
  intros H. unfold _build_endpoint. run. rewrite H. simpl.
  destruct (quote body default_safe); reflexivity.
Qed.

(** C10: when the title is absent or empty, [send] behaves as if no
    subtitle had been given, whatever the subtitle is: the outcome and the
    state are those of the call without subtitle, and a request put on the
    wire has the address base/quote(body) and no query parameter named
    [subtitle]. *)
Theorem subtitle_without_title_dropped body title subtitle url group icon
  sound call level is_archive copy ciphertext (w : world) :
  truthy title = false ->
  send body title subtitle url group icon sound call level is_archive copy
    ciphertext w
  = send body title None url group icon sound call level is_archive copy
      ciphertext w /\
  exists rs,
    wire (snd (send body title subtitle url group icon sound call level
                 is_archive copy ciphertext w)) = wire w ++ rs /\
    forall r, In r rs ->
      (exists qb, quote body default_safe = Return qb /\
                  req_url r = base_url (self w) ++ py "/" ++ qb) /\
      dict_contains (req_params r) (py "subtitle") = false.
Proof.
  intros T. split.
  - unfold send. now rewrite (build_endpoint_no_title body title subtitle T).
  - change (send body title subtitle url group icon sound call level
              is_archive copy ciphertext)
      with (invoke (Send body title subtitle url group icon sound call level
                      is_archive copy ciphertext)).
    rewrite invoke_world. eexists. split; [reflexivity |].
    unfold requests_of.
    destruct (truth body && negb (send_level_invalid level));
      [| intros r []].
    rewrite build_endpoint_body by assumption.
    destruct (quote body default_safe) as [qb | e]; cbn [fst];
      [| intros r []].
    intros r [<- | []]. split.
    + exists qb. split; reflexivity.
    + apply send_params_no_subtitle.
Qed.

(** *** Where the code departs from the specification *)

(** C1: [quote] keeps the slash.  A slash inside a segment goes through
    the encoding as it is, while the other reserved characters and the
    space become [%XX].  With title "A B", subtitle "C/D" and body "E", the
    space is escaped and the slash is not: the address of the request is
    base/A%20B/C/D/E, four segments after the base where three were
    meant. *)
Theorem slash_in_segment_not_escaped url group icon sound call is_archive
  copy ciphertext (w : world) :
  (forall a b, percent_encode (a ++ py "/" ++ b)
               = percent_encode a ++ py "/" ++ percent_encode b) /\
  forallb (fun c => match percent_encode [c] with
                    | [p; _; _] => N.eqb p 37
                    | _ => false
                    end) (py ":?#[]@!$&'()*+,;= ") = true /\
  quote (py "A B") default_safe = Return (py "A%20B") /\
  quote (py "C/D") default_safe = Return (py "C/D") /\
  wire (snd (send (py "E") (Some (py "A B")) (Some (py "C/D")) url group icon
               sound call None is_archive copy ciphertext w))
  = wire w ++
    [get_request (base_url (self w) ++ py "/A%20B/C/D/E")
       (send_params url group icon sound call None is_archive copy
          ciphertext)].
Proof.
  split.
  { intros a b. unfold percent_encode. now rewrite !flat_map_app. }
  split; [reflexivity |]. split; [reflexivity |]. split; [reflexivity |].
  change (send (py "E") (Some (py "A B")) (Some (py "C/D")) url group icon
            sound call None is_archive copy ciphertext)
    with (invoke (Send (py "E") (Some (py "A B")) (Some (py "C/D")) url group
                    icon sound call None is_archive copy ciphertext)).
  rewrite invoke_world. reflexivity.
Qed.

(** C2: [call=True] is sent as [call=1]; [call=False] is left out, while
    [is_archive=False] is sent as [isArchive=0]. *)
Theorem call_false_omitted_is_archive_false_sent url group icon sound level
  copy ciphertext (w : world) :
  dict_get (send_params url group icon sound (Some true) level (Some true)
              copy ciphertext) (py "call") = Some (VInt 1) /\
  dict_get (send_params url group icon sound (Some false) level (Some false)
              copy ciphertext) (py "call") = None /\
  dict_get (send_params url group icon sound (Some false) level (Some false)
              copy ciphertext) (py "isArchive") = Some (VInt 0) /\
  wire (snd (send (py "E") None None None None None None (Some false) None
               (Some false) None None w))
  = wire w ++
    [get_request (base_url (self w) ++ py "/E") [(py "isArchive", VInt 0)]].
Proof.
  unfold send_params. cbn [truthy_bool]. repeat split.
  - rewrite !dict_get_set_if_truthy, dict_get_set by reflexivity.
    rewrite dict_get_set_if_truthy, dict_get_set by reflexivity.
    reflexivity.
  - rewrite !dict_get_set_if_truthy, dict_get_set by reflexivity.
    rewrite !dict_get_set_if_truthy by reflexivity. reflexivity.
  - rewrite !dict_get_set_if_truthy, dict_get_set by reflexivity.
    reflexivity.
  - change (send (py "E") None None None None None None (Some false) None
              (Some false) None None)
      with (invoke (Send (py "E") None None None None None None (Some false)
                      None (Some false) None None)).
    rewrite invoke_world. reflexivity.
Qed.

(** C3: the two methods do not validate [level] alike.  [send] accepts
    a level that is [None] or the empty string and sends the request;
    [send_post] given the keyword [level] with either value raises the
    BarkClientException of an invalid level and sends nothing. *)
Theorem level_validation_differs (w : world) :
  wire (snd (send (py "E") None None None None None None None None None None
               None w))
  = wire w ++ [get_request (base_url (self w) ++ py "/E") []] /\
  wire (snd (send (py "E") None None None None None None None (Some []) None
               None None w))
  = wire w ++ [get_request (base_url (self w) ++ py "/E") []] /\
  send_post (py "E") None None [(py "level", VNone)] w
  = (Raise invalid_level, w) /\
  send_post (py "E") None None [(py "level", VStr [])] w
  = (Raise invalid_level, w).
Proof.
  repeat split.
  - change (send (py "E") None None None None None None None None None None
              None)
      with (invoke (Send (py "E") None None None None None None None None
                      None None None)).
    rewrite invoke_world. reflexivity.
  - change (send (py "E") None None None None None None None (Some []) None
              None None)
      with (invoke (Send (py "E") None None None None None None None
                      (Some []) None None None)).
    rewrite invoke_world. reflexivity.
Qed.

(** ** Further properties *)

(** *** One exchange with the server *)

Lemma handle_response_status (response : Response) (w : world) :
  status_code response <> 200%Z ->
  _handle_response response w =
  (Raise (Bark BarkServerException
            (py "Server returned error: " ++ text response)
            (Some (status_code response)) None), w).
Proof.
  intros H. unfold _handle_response. run.
  destruct (Z.eqb_spec (status_code response) 200); [contradiction |].
  reflexivity.
Qed.

Lemma handle_response_undecoded (response : Response) (e : exn) (w : world) :
  status_code response = 200%Z -> json_body response = Raise e ->
  _handle_response response w =
  if is_JSONDecodeError e then
    (Raise (Bark BarkServerException
              (py "Invalid JSON response: " ++ text response)
              (Some 200%Z) None), w)
  else (Raise e, w).
Proof.
  intros S J. unfold _handle_response. run. rewrite S, J. simpl.
  destruct (is_JSONDecodeError e); reflexivity.
Qed.

Lemma handle_response_dict (response : Response) (d : dict) (w : world) :
  status_code response = 200%Z -> json_body response = Return (VDict d) ->
  _handle_response response w =
  if code_is_200 d then (Return (VDict d), w)
  else (Raise (Bark BarkServerException (py "API error: " ++ message_of d)
                 (Some 200%Z) (Some (VDict d))), w).
Proof.
  intros S J. unfold _handle_response, code_is_200, message_of. run.
  rewrite S, J. simpl.
  destruct (dict_get d (py "code")) as [c |]; simpl.
  - destruct (eq_int c 200); simpl; [reflexivity |].
    destruct (dict_get d (py "message")); reflexivity.
  - destruct (dict_get d (py "message")); reflexivity.
Qed.

Lemma handle_response_not_dict (response : Response) (v : value) (w : world) :
  status_code response = 200%Z -> json_body response = Return v ->
  is_dict v = false ->
  _handle_response response w =
  (Raise (Lib AttributeError
            (py "'" ++ type_name v ++ py "' object has no attribute 'get'")),
   w).
Proof.
  intros S J D. unfold _handle_response. run. rewrite S, J. simpl.
  destruct v; try discriminate; reflexivity.
Qed.

Lemma transact_world (r : Request) (w : world) :
  snd (transact r w) = push r w.
Proof.
  unfold transact. rewrite try_except_ValueError_TypeError_world.
  apply perform_then_handle.
Qed.

Lemma transact_raise (r : Request) (e : exn) (w : world) :
  network w (wire w) r = Raise e ->
  fst (transact r w) =
  if is_RequestException e then
    Raise (Bark BarkNetworkException (py "Network error: " ++ lib_text e)
             None None)
  else Raise (reraise e).
Proof.
  intros N. unfold transact, try_except, bind, perform, reraise. rewrite N.
  unfold on_RequestException.
  destruct (is_RequestException e); [reflexivity |].
  unfold on_ValueError_TypeError.
  destruct (is_ValueError e || is_TypeError e); reflexivity.
Qed.

Lemma transact_return (r : Request) (response : Response) (w : world) :
  network w (wire w) r = Return response ->
  fst (transact r w) =
  match fst (_handle_response response (push r w)) with
  | Return v => Return v
  | Raise e => Raise (reraise e)
  end.
Proof.
  intros N. unfold transact, try_except, bind, perform, reraise. rewrite N.
  destruct (_handle_response response (push r w)) as [[v | e] w'];
    [reflexivity |].
  unfold on_ValueError_TypeError. cbn [fst].
  destruct (is_ValueError e || is_TypeError e); reflexivity.
Qed.

(** The outcomes of one exchange, by what the environment does. *)
Lemma transact_cases (r : Request) (w : world) :
  (exists e, network w (wire w) r = Raise e /\
     is_RequestException e = true /\
     fst (transact r w) =
     Raise (Bark BarkNetworkException (py "Network error: " ++ lib_text e)
              None None)) \/
  (exists e, network w (wire w) r = Raise e /\
     is_RequestException e = false /\
     fst (transact r w) = Raise (reraise e)) \/
  (exists response, network w (wire w) r = Return response /\
     status_code response <> 200%Z /\
     fst (transact r w) =
     Raise (Bark BarkServerException
              (py "Server returned error: " ++ text response)
              (Some (status_code response)) None)) \/
  (exists response e, network w (wire w) r = Return response /\
     status_code response = 200%Z /\ json_body response = Raise e /\
     is_JSONDecodeError e = true /\
     fst (transact r w) =
     Raise (Bark BarkServerException
              (py "Invalid JSON response: " ++ text response)
              (Some 200%Z) None)) \/
  (exists response e, network w (wire w) r = Return response /\
     status_code response = 200%Z /\ json_body response = Raise e /\
     is_JSONDecodeError e = false /\
     fst (transact r w) = Raise (reraise e)) \/
  (exists response d, network w (wire w) r = Return response /\
     status_code response = 200%Z /\
     json_body response = Return (VDict d) /\
     fst (transact r w) =
     if code_is_200 d then Return (VDict d)
     else Raise (Bark BarkServerException (py "API error: " ++ message_of d)
                   (Some 200%Z) (Some (VDict d)))) \/
  (exists response v, network w (wire w) r = Return response /\
     status_code response = 200%Z /\ json_body response = Return v /\
     is_dict v = false /\
     fst (transact r w) =
     Raise (Lib AttributeError
              (py "'" ++ type_name v ++ py "' object has no attribute 'get'"))).
Proof.
  destruct (network w (wire w) r) as [response | e] eqn:N.
  - rewrite (transact_return r response w N).
    destruct (Z.eq_dec (status_code response) 200) as [S | S].
    + destruct (json_body response) as [v | e] eqn:J.
      * destruct (is_dict v) eqn:D.
        -- destruct v; try discriminate.
           do 5 right. left. exists response, d. repeat split; try assumption.
           rewrite (handle_response_dict response d _ S J).
           destruct (code_is_200 d); reflexivity.
        -- do 6 right. exists response, v. repeat split; try assumption.
           now rewrite (handle_response_not_dict response v _ S J D).
      * rewrite (handle_response_undecoded response e _ S J).
        destruct (is_JSONDecodeError e) eqn:D.
        -- do 3 right. left. exists response, e. now repeat split.
        -- do 4 right. left. exists response, e. now repeat split.
    + do 2 right. left. exists response. repeat split; try assumption.
      now rewrite (handle_response_status response _ S).
  - rewrite (transact_raise r e w N).
    destruct (is_RequestException e) eqn:R.
    + left. exists e. now repeat split.
    + right. left. exists e. now repeat split.
Qed.

(** *** A call: refused, or one exchange *)

Lemma build_endpoint_raises (body : str) (title subtitle : option str)
  (e : exn) (w : world) :
  fst (_build_endpoint body title subtitle w) = Raise e ->
  exists m,
    e = Bark BarkClientException (py "Error building endpoint URL: " ++ m)
          None None.
Proof.
  unfold _build_endpoint. run.
  destruct (truthy title && truthy subtitle).
  - destruct (quote_opt title default_safe) as [qt | e1]; simpl;
      [| intros [= <-]; eauto].
    destruct (quote_opt subtitle default_safe) as [qs | e1]; simpl;
      [| intros [= <-]; eauto].
    destruct (quote body default_safe) as [qb | e1]; simpl;
      [discriminate | intros [= <-]; eauto].
  - destruct (truthy title).
    + destruct (quote_opt title default_safe) as [qt | e1]; simpl;
        [| intros [= <-]; eauto].
      destruct (quote body default_safe) as [qb | e1]; simpl;
        [discriminate | intros [= <-]; eauto].
    + destruct (quote body default_safe) as [qb | e1]; simpl;
        [discriminate | intros [= <-]; eauto].
Qed.

Lemma requests_of_cases (c : invocation) (me : BarkNotification) :
  requests_of c me = [] \/ exists r, requests_of c me = [r].
Proof.
  destruct c; simpl.
  - destruct (truth body && negb (send_level_invalid level)); [| now left].
    destruct (fst (_build_endpoint body title subtitle (blank me)));
      [right; eauto | now left].
  - destruct (truth body && negb (send_post_level_invalid kwargs));
      [right; eauto | now left].
Qed.

Lemma invoke_refused (c : invocation) (w : world) :
  requests_of c (self w) = [] ->
  exists m, invoke c w = (Raise (Bark BarkClientException m None None), w).
Proof.
  destruct c; simpl.
  - unfold send. destruct (truth body); simpl; [| intros _; now eexists].
    destruct (send_level_invalid level); simpl; [intros _; now eexists |].
    intros H. unfold try_except at 1. unfold bind at 1.
    rewrite build_endpoint_reads_self.
    destruct (fst (_build_endpoint body title subtitle (blank (self w))))
      as [endpoint | e] eqn:E; [discriminate |].
    apply build_endpoint_raises in E as [m ->]. now eexists.
  - unfold send_post. destruct (truth body); simpl; [| intros _; now eexists].
    destruct (send_post_level_invalid kwargs); simpl;
      [intros _; now eexists | discriminate].
Qed.

Lemma invoke_transact (c : invocation) (r : Request) (w : world) :
  requests_of c (self w) = [r] -> invoke c w = transact r w.
Proof.
  destruct c; simpl.
  - unfold send. destruct (truth body); simpl; [| discriminate].
    destruct (send_level_invalid level); simpl; [discriminate |].
    intros H. unfold transact, try_except at 1 3. unfold bind at 1.
    rewrite build_endpoint_reads_self.
    destruct (fst (_build_endpoint body title subtitle (blank (self w))))
      as [endpoint | e]; [| discriminate].
    injection H as <-. reflexivity.
  - unfold send_post. destruct (truth body); simpl; [| discriminate].
    destruct (send_post_level_invalid kwargs); simpl; [discriminate |].
    intros [= <-]. reflexivity.
Qed.

Lemma wire_requests (c : invocation) (rs : list Request) (w : world) :
  wire (snd (invoke c w)) = wire w ++ rs -> requests_of c (self w) = rs.
Proof. rewrite invoke_world. simpl. apply app_inv_head. Qed.

Lemma wire_transact (c : invocation) (r : Request) (w : world) :
  wire (snd (invoke c w)) = wire w ++ [r] -> invoke c w = transact r w.
Proof. intros H. apply invoke_transact. now apply wire_requests. Qed.

(** X1: a call never retries.  It either raises a BarkClientException and
    leaves the state as it was, or it puts exactly one request on the wire,
    with a timeout of 10; the request of [send] is a GET without payload,
    the request of [send_post] is a POST to the base address of the client
    without query parameters. *)
Theorem one_request_or_refusal (c : invocation) (w : world) :
  (exists m, invoke c w = (Raise (Bark BarkClientException m None None), w)) \/
  (exists r,
     snd (invoke c w) = push r w /\ req_timeout r = 10%Z /\
     match c with
     | Send _ _ _ _ _ _ _ _ _ _ _ _ =>
         req_method r = GET /\ req_json r = None
     | SendPost _ _ _ _ =>
         req_method r = POST /\ req_url r = base_url (self w) /\
         req_params r = []
     end).
Proof.
  destruct (requests_of_cases c (self w)) as [H | [r H]].
  - left. now apply invoke_refused.
  - right. exists r. rewrite invoke_world, H. split; [reflexivity |].
    destruct c; simpl in H.
    + destruct (truth body && negb (send_level_invalid level));
        [| discriminate].
      destruct (fst (_build_endpoint body title subtitle (blank (self w))));
        [| discriminate].
      injection H as <-. now repeat split.
    + destruct (truth body && negb (send_post_level_invalid kwargs));
        [| discriminate].
      injection H as <-. now repeat split.
Qed.

(** X2: when the transport raises a RequestException for the request of
    a call, the call raises a BarkNetworkException whose message is
    "Network error: " followed by the text of that exception; the request
    stays on the wire once. *)
Theorem transport_failure_reported (c : invocation) (r : Request) (e : exn)
  (w : world) :
  wire (snd (invoke c w)) = wire w ++ [r] ->
  network w (wire w) r = Raise e ->
  is_RequestException e = true ->
  invoke c w =
  (Raise (Bark BarkNetworkException (py "Network error: " ++ lib_text e)
            None None), push r w).
Proof.
  intros W N R. rewrite (wire_transact c r w W).
  rewrite (surjective_pairing (transact r w)), transact_world.
  now rewrite (transact_raise r e w N), R.
Qed.

(** X3: a call returns a value exactly when its request was answered with
    status 200 and a body that parses to an object whose ['code'] equals
    200; the value returned is that object. *)
Theorem returns_iff_code_200 (c : invocation) (v : value) (w : world) :
  fst (invoke c w) = Return v <->
  exists r response d,
    wire (snd (invoke c w)) = wire w ++ [r] /\
    network w (wire w) r = Return response /\
    status_code response = 200%Z /\
    json_body response = Return (VDict d) /\
    code_is_200 d = true /\ v = VDict d.
Proof.
  split.
  - intros H. destruct (requests_of_cases c (self w)) as [E | [r E]].
    + apply invoke_refused in E as [m E]. rewrite E in H. discriminate.
    + assert (W : wire (snd (invoke c w)) = wire w ++ [r])
        by now rewrite invoke_world, E.
      rewrite (invoke_transact c r w E) in H.
      destruct (transact_cases r w)
        as [[e [_ [_ T]]] | [[e [_ [_ T]]] | [[p [_ [_ T]]]
           | [[p [e [_ [_ [_ [_ T]]]]]] | [[p [e [_ [_ [_ [_ T]]]]]]
           | [[p [d [N [S [J T]]]]] | [p [x [_ [_ [_ [_ T]]]]]]]]]]]];
        rewrite T in H; try discriminate.
      destruct (code_is_200 d) eqn:C; [| discriminate].
      injection H as <-. exists r, p, d. now repeat split.
  - intros [r [response [d [W [N [S [J [C ->]]]]]]]].
    rewrite (wire_transact c r w W), (transact_return r response w N).
    now rewrite (handle_response_dict response d _ S J), C.
Qed.

(** X4: when the transport raises only RequestException and
    [response.json()] gives an object or raises JSONDecodeError, a call
    returns or raises one of the three exceptions of the SDK: nothing else
    reaches the caller. *)
Theorem only_sdk_exceptions (c : invocation) (w : world) :
  well_behaved w ->
  (exists v, fst (invoke c w) = Return v) \/
  (exists cls m st body, fst (invoke c w) = Raise (Bark cls m st body)).
Proof.
  intros B. destruct (requests_of_cases c (self w)) as [E | [r E]].
  - apply invoke_refused in E as [m E]. rewrite E. right. now do 4 eexists.
  - rewrite (invoke_transact c r w E). specialize (B r).
    destruct (transact_cases r w)
      as [[e [N [_ T]]] | [[e [N [R T]]] | [[p [N [_ T]]]
         | [[p [e [N [_ [_ [_ T]]]]]] | [[p [e [N [_ [J [D T]]]]]]
         | [[p [d [N [S [J T]]]]] | [p [x [N [_ [J [D T]]]]]]]]]]]];
      rewrite T; rewrite N in B.
    + right. now do 4 eexists.
    + congruence.
    + right. now do 4 eexists.
    + right. now do 4 eexists.
    + rewrite J in B. congruence.
    + destruct (code_is_200 d); [left; now eexists | right; now do 4 eexists].
    + rewrite J in B. congruence.
Qed.

(** X5: a body with status 200 that parses to something other than an
    object (a list, a number, a string, null) is not reported as a server
    error: the AttributeError of the missing [get] method leaves the call
    as it is. *)
Theorem non_object_body_escapes (c : invocation) (r : Request)
  (response : Response) (v : value) (w : world) :
  wire (snd (invoke c w)) = wire w ++ [r] ->
  network w (wire w) r = Return response ->
  status_code response = 200%Z ->
  json_body response = Return v ->
  is_dict v = false ->
  fst (invoke c w) =
  Raise (Lib AttributeError
           (py "'" ++ type_name v ++ py "' object has no attribute 'get'")).
Proof.
  intros W N S J D.
  rewrite (wire_transact c r w W), (transact_return r response w N).
  now rewrite (handle_response_not_dict response v _ S J D).
Qed.

(** X6: a ValueError or TypeError that the transport raises, and that is
    no RequestException, reaches the caller as a BarkClientException with
    the message "Invalid parameter: " and the text of the exception, after
    the request went on the wire. *)
Theorem transport_value_error_as_client_error (c : invocation) (r : Request)
  (e : exn) (w : world) :
  wire (snd (invoke c w)) = wire w ++ [r] ->
  network w (wire w) r = Raise e ->
  is_RequestException e = false ->
  is_ValueError e || is_TypeError e = true ->
  invoke c w =
  (Raise (Bark BarkClientException (py "Invalid parameter: " ++ lib_text e)
            None None), push r w).
Proof.
  intros W N R V. rewrite (wire_transact c r w W).
  rewrite (surjective_pairing (transact r w)), transact_world.
  rewrite (transact_raise r e w N), R. unfold reraise. now rewrite V.
Qed.

(** X7: under the same assumption on the environment, an exception of a
    call carries a status code exactly when it is a BarkServerException,
    and the code is the HTTP status of the response; a BarkClientException
    or BarkNetworkException carries neither status nor body.  So [str(e)]
    is the message alone for the latter two, and for a server error the
    message followed by " (Status code: N)", N the HTTP status (left out
    when it is 0). *)
Theorem status_code_only_on_server_errors (c : invocation) (cls : bark_class)
  (m : str) (st : option Z) (body : option value) (w : world) :
  well_behaved w ->
  fst (invoke c w) = Raise (Bark cls m st body) ->
  match cls with
  | BarkServerException =>
      exists r response,
        wire (snd (invoke c w)) = wire w ++ [r] /\
        network w (wire w) r = Return response /\
        st = Some (status_code response) /\
        (body = None \/
         exists d, json_body response = Return (VDict d) /\
                   body = Some (VDict d)) /\
        str_exn (Bark cls m st body)
        = if Z.eqb (status_code response) 0 then m
          else m ++ py " (Status code: " ++ int_str (status_code response) ++
               py ")"
  | _ => st = None /\ body = None /\ str_exn (Bark cls m st body) = m
  end.
Proof.
  intros B H. destruct (requests_of_cases c (self w)) as [E | [r E]].
  - apply invoke_refused in E as [m' E]. rewrite E in H.
    injection H as <- <- <- <-. now repeat split.
  - assert (W : wire (snd (invoke c w)) = wire w ++ [r])
      by now rewrite invoke_world, E.
    assert (P : forall n,
               __str__ m (Some n)
               = if Z.eqb n 0 then m
                 else m ++ py " (Status code: " ++ int_str n ++ py ")").
    { intros n. unfold __str__. now destruct (Z.eqb n 0). }
    rewrite (invoke_transact c r w E) in H. specialize (B r).
    destruct (transact_cases r w)
      as [[e [N [_ T]]] | [[e [N [R T]]] | [[p [N [_ T]]]
         | [[p [e [N [S [_ [_ T]]]]]] | [[p [e [N [_ [J [D T]]]]]]
         | [[p [d [N [S [J T]]]]] | [p [x [N [_ [J [D T]]]]]]]]]]]];
      rewrite T in H; rewrite N in B.
    + injection H as <- <- <- <-. now repeat split.
    + congruence.
    + injection H as <- <- <- <-. exists r, p. cbn [str_exn].
      rewrite P. repeat split; auto.
    + injection H as <- <- <- <-. exists r, p. cbn [str_exn].
      rewrite P, S. repeat split; auto.
    + rewrite J in B. congruence.
    + destruct (code_is_200 d); [discriminate |].
      injection H as <- <- <- <-. exists r, p. cbn [str_exn].
      rewrite P, S. repeat split; eauto.
    + rewrite J in B. congruence.
Qed.

(** *** Query parameters and payload *)

Lemma dict_contains_app (a b : dict) (k : str) :
  dict_contains (a ++ b) k = dict_contains a k || dict_contains b k.
Proof. unfold dict_contains. apply existsb_app. Qed.

Lemma dict_contains_In (d : dict) (k : str) :
  dict_contains d k = true <-> In k (map fst d).
Proof.
  unfold dict_contains. rewrite existsb_exists, in_map_iff. split.
  - intros [kv [I E]]. apply str_eqb_eq in E. eauto.
  - intros [kv [E I]]. exists kv. split; [exact I |]. now apply str_eqb_eq.
Qed.

Lemma dict_contains_get (d : dict) (k : str) :
  dict_contains d k = false <-> dict_get d k = None.
Proof.
  unfold dict_contains. induction d as [| [k0 v0] d IH]; simpl.
  - tauto.
  - destruct (str_eqb k0 k); simpl; [split; discriminate | exact IH].
Qed.

Lemma dict_set_fresh (d : dict) (k : str) (v : value) :
  dict_contains d k = false -> dict_set d k v = d ++ [(k, v)].
Proof.
  unfold dict_contains. induction d as [| [k0 v0] d IH]; simpl.
  - reflexivity.
  - destruct (str_eqb k0 k); simpl; [discriminate |].
    intros H. now rewrite IH.
Qed.

Lemma set_if_truthy_fresh (d : dict) (k : str) (x : option str) :
  dict_contains d k = false -> set_if_truthy d k x = d ++ opt_item k x.
Proof.
  intros H. unfold set_if_truthy, opt_item.
  destruct x as [s |]; [| now rewrite app_nil_r].
  destruct (truth s); [now apply dict_set_fresh | now rewrite app_nil_r].
Qed.

Lemma dict_contains_opt_item (k k' : str) (x : option str) :
  str_eqb k k' = false -> dict_contains (opt_item k x) k' = false.
Proof.
  intros H. unfold opt_item. destruct x as [s |]; [| reflexivity].
  destruct (truth s); [| reflexivity].
  unfold dict_contains. simpl. now rewrite H.
Qed.

Ltac fresh_key :=
  rewrite ?dict_contains_app;
  rewrite ?dict_contains_opt_item by reflexivity;
  reflexivity.

(** X8: the query parameters of [send] are, in this order, url, group,
    icon, sound, call, level, isArchive, copy and ciphertext; a string
    argument gives a parameter, with its value unchanged, exactly when it
    is given and non-empty; [call] gives [call=1] exactly when it is true;
    [is_archive] gives [isArchive=1] or [isArchive=0] whenever it is given. *)
Theorem send_params_in_order url group icon sound call level is_archive copy
  ciphertext :
  send_params url group icon sound call level is_archive copy ciphertext =
  opt_item (py "url") url ++ opt_item (py "group") group ++
  opt_item (py "icon") icon ++ opt_item (py "sound") sound ++
  (if truthy_bool call then [(py "call", VInt 1)] else []) ++
  opt_item (py "level") level ++
  match is_archive with
  | Some b => [(py "isArchive", VInt (if b then 1 else 0))]
  | None => []
  end ++
  opt_item (py "copy") copy ++ opt_item (py "ciphertext") ciphertext.
Proof.
  unfold send_params.
  rewrite (set_if_truthy_fresh [] (py "url")) by reflexivity.
  rewrite (set_if_truthy_fresh _ (py "group")) by fresh_key.
  rewrite (set_if_truthy_fresh _ (py "icon")) by fresh_key.
  rewrite (set_if_truthy_fresh _ (py "sound")) by fresh_key.
  cbn [app].
  destruct (truthy_bool call).
  - rewrite (dict_set_fresh _ (py "call")) by fresh_key.
    rewrite (set_if_truthy_fresh _ (py "level")) by fresh_key.
    destruct is_archive as [b |].
    + rewrite (dict_set_fresh _ (py "isArchive")) by fresh_key.
      rewrite (set_if_truthy_fresh _ (py "copy")) by fresh_key.
      rewrite (set_if_truthy_fresh _ (py "ciphertext")) by fresh_key.
      now rewrite <- !app_assoc.
    + rewrite (set_if_truthy_fresh _ (py "copy")) by fresh_key.
      rewrite (set_if_truthy_fresh _ (py "ciphertext")) by fresh_key.
      now rewrite <- !app_assoc.
  - rewrite (set_if_truthy_fresh _ (py "level")) by fresh_key.
    destruct is_archive as [b |].
    + rewrite (dict_set_fresh _ (py "isArchive")) by fresh_key.
      rewrite (set_if_truthy_fresh _ (py "copy")) by fresh_key.
      rewrite (set_if_truthy_fresh _ (py "ciphertext")) by fresh_key.
      now rewrite <- !app_assoc.
    + rewrite (set_if_truthy_fresh _ (py "copy")) by fresh_key.
      rewrite (set_if_truthy_fresh _ (py "ciphertext")) by fresh_key.
      now rewrite <- !app_assoc.
Qed.

Lemma fold_dict_set_fresh (kwargs d : dict) :
  NoDup (map fst kwargs) ->
  (forall k, dict_contains kwargs k = true -> dict_contains d k = false) ->
  fold_left (fun data kv => dict_set data (fst kv) (snd kv)) kwargs d
  = d ++ kwargs.
Proof.
  revert d. induction kwargs as [| [k v] kwargs IH]; intros d N F.
  - now rewrite app_nil_r.
  - cbn [fold_left fst snd]. inversion N as [| ? ? K N']; subst.
    rewrite dict_set_fresh.
    + rewrite IH; [now rewrite <- app_assoc | exact N' |].
      intros k' C. rewrite dict_contains_app.
      rewrite F by (unfold dict_contains in *; simpl; rewrite C;
                    apply orb_true_r).
      unfold dict_contains at 1. simpl. rewrite orb_false_r.
      destruct (str_eqb k k') eqn:E; [| reflexivity].
      apply str_eqb_eq in E. subst k'.
      apply dict_contains_In in C. contradiction.
    + apply F. unfold dict_contains. simpl. now rewrite str_eqb_refl.
Qed.

(** X9: when the keyword arguments have distinct names, none of them
    [body], [title] or [subtitle] (as Python's call rules ensure), the
    payload of [send_post] is the body, then the title and the subtitle
    when non-empty, then every keyword argument in the order given, each
    with its value as it was passed. *)
Theorem send_post_payload (body : str) (title subtitle : option str)
  (kwargs : dict) :
  NoDup (map fst kwargs) ->
  dict_contains kwargs (py "body") = false ->
  dict_contains kwargs (py "title") = false ->
  dict_contains kwargs (py "subtitle") = false ->
  send_post_data body title subtitle kwargs =
  [(py "body", VStr body)] ++ opt_item (py "title") title ++
  opt_item (py "subtitle") subtitle ++ kwargs.
Proof.
  intros N B T S. unfold send_post_data.
  rewrite (set_if_truthy_fresh _ (py "title")) by reflexivity.
  rewrite (set_if_truthy_fresh _ (py "subtitle")) by fresh_key.
  rewrite fold_dict_set_fresh; [now rewrite <- !app_assoc | exact N |].
  intros k C. rewrite !dict_contains_app.
  destruct (str_eqb (py "body") k) eqn:E1.
  { apply str_eqb_eq in E1. subst k. congruence. }
  destruct (str_eqb (py "title") k) eqn:E2.
  { apply str_eqb_eq in E2. subst k. congruence. }
  destruct (str_eqb (py "subtitle") k) eqn:E3.
  { apply str_eqb_eq in E3. subst k. congruence. }
  rewrite !dict_contains_opt_item by assumption.
  unfold dict_contains. simpl. now rewrite E1.
Qed.

(** *** Validation of the level *)

Lemma str_in_In (x : str) (xs : list str) : str_in x xs = true <-> In x xs.
Proof.
  unfold str_in. rewrite existsb_exists. split.
  - intros [y [I E]]. apply str_eqb_eq in E. now subst.
  - intros I. exists x. split; [exact I | apply str_eqb_refl].
Qed.

Lemma send_level_invalid_allowed (level : option str) :
  send_level_invalid level = false <-> level_allowed level.
Proof.
  unfold send_level_invalid, level_allowed.
  destruct level as [l |]; [| split; auto].
  destruct l as [| c l]; [split; auto |].
  cbn [truth andb]. rewrite negb_false_iff, str_in_In. split.
  - intros I. right. right. eauto.
  - intros [H | [H | [l' [[= <-] I]]]]; [discriminate .. | exact I].
Qed.

Lemma send_post_level_invalid_allowed (kwargs : dict) :
  send_post_level_invalid kwargs = false <-> post_level_allowed kwargs.
Proof.
  unfold send_post_level_invalid, post_level_allowed.
  destruct (dict_get kwargs (py "level")) as [v |] eqn:G.
  - assert (C : dict_contains kwargs (py "level") = true).
    { destruct (dict_contains kwargs (py "level")) eqn:C; [reflexivity |].
      apply dict_contains_get in C. congruence. }
    rewrite C. cbn [andb]. rewrite negb_false_iff. split.
    + intros I. right. destruct v; try discriminate.
      exists s. split; [reflexivity | now apply str_in_In].
    + intros [H | [l [[= ->] I]]]; [discriminate |].
      now apply str_in_In.
  - rewrite andb_false_r. split; auto.
Qed.

Lemma send_params_level url group icon sound call level is_archive copy
  ciphertext :
  dict_get
    (send_params url group icon sound call level is_archive copy ciphertext)
    (py "level")
  = match level with
    | Some l => if truth l then Some (VStr l) else None
    | None => None
    end.
Proof.
  unfold send_params.
  rewrite !dict_get_set_if_truthy by reflexivity.
  assert (L : forall d,
             dict_get d (py "level") = None ->
             dict_get (set_if_truthy d (py "level") level) (py "level")
             = match level with
               | Some l => if truth l then Some (VStr l) else None
               | None => None
               end).
  { intros d D. unfold set_if_truthy. destruct level as [l |]; [| exact D].
    destruct (truth l); [| exact D].
    now rewrite dict_get_set, str_eqb_refl. }
  assert (D : dict_get
                (if truthy_bool call
                 then dict_set
                        (set_if_truthy
                           (set_if_truthy
                              (set_if_truthy (set_if_truthy [] (py "url") url)
                                 (py "group") group) (py "icon") icon)
                           (py "sound") sound) (py "call")
                        (VInt (if truthy_bool call then 1 else 0))
                 else set_if_truthy
                        (set_if_truthy
                           (set_if_truthy (set_if_truthy [] (py "url") url)
                              (py "group") group) (py "icon") icon)
                        (py "sound") sound) (py "level") = None).
  { destruct (truthy_bool call).
    - rewrite dict_get_set, !dict_get_set_if_truthy by reflexivity.
      reflexivity.
    - now rewrite !dict_get_set_if_truthy by reflexivity. }
  destruct is_archive as [b |].
  - rewrite dict_get_set. simpl (str_eqb _ _). cbv iota. now apply L.
  - now apply L.
Qed.

(** *** The endpoint, segment by segment *)

Lemma quote_surrogate (s : str) :
  has_surrogate s = true ->
  quote s default_safe = Raise (Lib UnicodeEncodeError (encode_error_text s)).
Proof.
  intros H. unfold quote, encode_utf8. fold (has_surrogate s). rewrite H.
  destruct s; [discriminate | reflexivity].
Qed.

Lemma quote_cases (s : str) :
  quote s default_safe =
  if has_surrogate s
  then Raise (Lib UnicodeEncodeError (encode_error_text s))
  else Return (percent_encode s).
Proof.
  destruct (has_surrogate s) eqn:H;
    [now apply quote_surrogate | now apply quote_text].
Qed.

(** [_build_endpoint] as a function of its segments: the first segment
    with a lone surrogate stops it, and otherwise the endpoint is the base
    address followed by the path of the segments. *)
Lemma build_endpoint_segments (body : str) (title subtitle : option str)
  (w : world) :
  _build_endpoint body title subtitle w =
  match find has_surrogate (segments body title subtitle) with
  | Some bad =>
      (Raise (Bark BarkClientException
                (py "Error building endpoint URL: " ++ encode_error_text bad)
                None None), w)
  | None =>
      (Return (base_url (self w) ++
               path_of (segments body title subtitle)), w)
  end.
Proof.
  unfold _build_endpoint, segments, path_of, quote_opt. run.
  destruct title as [t |]; [destruct subtitle as [s |] |]; cbn [truthy].
  - destruct (truth t), (truth s); cbn [andb find flat_map];
      rewrite ?quote_cases;
      repeat match goal with
             | |- context [has_surrogate ?x] => destruct (has_surrogate x)
             end; cbn [fst snd lib_text];
      rewrite <- ?app_assoc, ?app_nil_r; reflexivity.
  - destruct (truth t); cbn [andb find flat_map];
      rewrite ?quote_cases;
      repeat match goal with
             | |- context [has_surrogate ?x] => destruct (has_surrogate x)
             end; cbn [fst snd lib_text];
      rewrite <- ?app_assoc, ?app_nil_r; reflexivity.
  - cbn [andb find flat_map]. rewrite ?quote_cases.
    destruct (has_surrogate body); cbn [fst snd lib_text];
      rewrite <- ?app_assoc, ?app_nil_r; reflexivity.
Qed.

Lemma send_accepted body title subtitle url group icon sound call level
  is_archive copy ciphertext (w : world) :
  truth body = true -> send_level_invalid level = false ->
  requests_of
    (Send body title subtitle url group icon sound call level is_archive copy
       ciphertext) (self w)
  = match find has_surrogate (segments body title subtitle) with
    | Some _ => []
    | None =>
        [get_request
           (base_url (self w) ++ path_of (segments body title subtitle))
           (send_params url group icon sound call level is_archive copy
              ciphertext)]
    end.
Proof.
  intros B L. unfold requests_of. rewrite B, L. cbn [andb negb].
  rewrite build_endpoint_segments.
  now destruct (find has_surrogate (segments body title subtitle)).
Qed.

(** X10: for a non-empty body, [send] builds its endpoint from the segments
    it uses (title, subtitle, body, as far as they are non-empty and in
    that order).  If one of them holds a lone surrogate it raises the
    BarkClientException "Error building endpoint URL: ..." for the first
    such segment and sends nothing; otherwise it sends one GET to the base
    address followed by "/" and the encoding of each segment, with the
    query parameters of the call. *)
Theorem send_endpoint_or_refusal body title subtitle url group icon sound
  call level is_archive copy ciphertext (w : world) :
  truth body = true ->
  send_level_invalid level = false ->
  match find has_surrogate (segments body title subtitle) with
  | Some bad =>
      send body title subtitle url group icon sound call level is_archive
        copy ciphertext w
      = (Raise (Bark BarkClientException
                  (py "Error building endpoint URL: " ++
                   encode_error_text bad) None None), w)
  | None =>
      snd (send body title subtitle url group icon sound call level
             is_archive copy ciphertext w)
      = push (get_request
                (base_url (self w) ++ path_of (segments body title subtitle))
                (send_params url group icon sound call level is_archive copy
                   ciphertext)) w
  end.
Proof.
  intros B L.
  destruct (find has_surrogate (segments body title subtitle)) as [bad |] eqn:F.
  - unfold send. rewrite B, L. cbn [negb].
    unfold try_except at 1. unfold bind at 1.
    now rewrite build_endpoint_segments, F.
  - change (send body title subtitle url group icon sound call level
              is_archive copy ciphertext)
      with (invoke (Send body title subtitle url group icon sound call level
                      is_archive copy ciphertext)).
    now rewrite invoke_world, send_accepted, F.
Qed.

(** X11: for a non-empty body and strings without lone surrogates, [send]
    with a level that is absent, empty or one of the four known values
    sends a request that carries the level, unchanged, as the parameter
    [level] when it is non-empty and no such parameter otherwise; with any
    other level it raises the BarkClientException of an invalid level and
    leaves the state as it was. *)
Theorem send_level_checked body title subtitle url group icon sound call level
  is_archive copy ciphertext (w : world) :
  truth body = true ->
  find has_surrogate (segments body title subtitle) = None ->
  (level_allowed level ->
   exists r,
     snd (send body title subtitle url group icon sound call level
            is_archive copy ciphertext w) = push r w /\
     dict_get (req_params r) (py "level")
     = match level with
       | Some l => if truth l then Some (VStr l) else None
       | None => None
       end) /\
  (~ level_allowed level ->
   send body title subtitle url group icon sound call level is_archive copy
     ciphertext w = (Raise invalid_level, w)).
Proof.
  intros B F. split.
  - intros A. apply send_level_invalid_allowed in A.
    change (send body title subtitle url group icon sound call level
              is_archive copy ciphertext)
      with (invoke (Send body title subtitle url group icon sound call level
                      is_archive copy ciphertext)).
    rewrite invoke_world, send_accepted, F by assumption.
    eexists. split; [reflexivity |]. apply send_params_level.
  - intros A. unfold send. rewrite B. cbn [negb].
    destruct (send_level_invalid level) eqn:L; [reflexivity |].
    now apply send_level_invalid_allowed in L.
Qed.

(** X12: [send_post] checks the body first and the level second.  An
    empty body raises the BarkClientException "Notification body cannot be
    empty", whatever the level.  With a non-empty body, keyword arguments
    that hold no [level], or a [level] that is one of the four known
    strings, give one POST to the base address with the payload, whatever
    the text of body, title and subtitle; any other [level] (another
    string, the empty string, [None], a number) raises the
    BarkClientException of an invalid level.  A refused call sends
    nothing. *)
Theorem send_post_validation (body : str) (title subtitle : option str)
  (kwargs : dict) (w : world) :
  (body = [] ->
   send_post body title subtitle kwargs w = (Raise empty_body, w)) /\
  (body <> [] -> ~ post_level_allowed kwargs ->
   send_post body title subtitle kwargs w = (Raise invalid_level, w)) /\
  (body <> [] -> post_level_allowed kwargs ->
   snd (send_post body title subtitle kwargs w)
   = push (post_request (self w)
             (send_post_data body title subtitle kwargs)) w).
Proof.
  split; [intros ->; reflexivity |].
  assert (T : body <> [] -> truth body = true)
    by (destruct body; [contradiction | reflexivity]).
  split; intros B A; specialize (T B).
  - unfold send_post. rewrite T. cbn [negb].
    destruct (send_post_level_invalid kwargs) eqn:L; [reflexivity |].
    now apply send_post_level_invalid_allowed in L.
  - apply send_post_level_invalid_allowed in A.
    unfold send_post. rewrite T, A. cbn [negb].
    rewrite try_except_ValueError_TypeError_world, bind_world.
    unfold get_self. cbn [fst snd]. apply perform_then_handle.
Qed.

(** *** What [quote] lets through *)

Lemma percent_encode_app (a b : str) :
  percent_encode (a ++ b) = percent_encode a ++ percent_encode b.
Proof. unfold percent_encode. now rewrite !flat_map_app. Qed.

Lemma has_surrogate_app (a b : str) :
  has_surrogate (a ++ b) = has_surrogate a || has_surrogate b.
Proof. apply existsb_app. Qed.

(** X13: the endpoint does not tell a slash inside the title from the
    separator between title and subtitle.  For non-empty [t] and [s]
    without lone surrogates, the call with title [t/s] and no subtitle is
    the call with title [t] and subtitle [s]: same outcome, same request. *)
Theorem slash_in_title_is_a_separator body t s url group icon sound call level
  is_archive copy ciphertext (w : world) :
  t <> [] -> s <> [] ->
  has_surrogate t = false -> has_surrogate s = false ->
  send body (Some (t ++ py "/" ++ s)) None url group icon sound call level
    is_archive copy ciphertext w
  = send body (Some t) (Some s) url group icon sound call level is_archive
      copy ciphertext w.
Proof.
  intros T S Ht Hs.
  assert (E : forall w', _build_endpoint body (Some (t ++ py "/" ++ s)) None w'
                         = _build_endpoint body (Some t) (Some s) w').
  { intros w'. rewrite !build_endpoint_segments. unfold segments.
    destruct t as [| c t]; [contradiction |].
    destruct s as [| c' s]; [contradiction |].
    cbn [truth andb app find path_of flat_map].
    change (c :: t ++ py "/" ++ c' :: s)
      with ((c :: t) ++ py "/" ++ c' :: s).
    rewrite !has_surrogate_app, !percent_encode_app, Ht, Hs.
    change (has_surrogate (py "/")) with false.
    change (percent_encode (py "/")) with (py "/").
    cbn [orb]. now rewrite <- !app_assoc. }
  unfold send. destruct (truth body); [| reflexivity]. cbn [negb].
  destruct (send_level_invalid level); [reflexivity |].
  unfold try_except at 1 3. unfold bind at 1 3. now rewrite E.
Qed.

Lemma byte_in_In (b : N) (bs : bytes) : byte_in b bs = true <-> In b bs.
Proof.
  unfold byte_in. rewrite existsb_exists. split.
  - intros [x [I E]]. apply N.eqb_eq in E. now subst.
  - intros I. exists b. split; [exact I | apply N.eqb_refl].
Qed.

Lemma safe_is_ascii (c : N) :
  byte_in c (_ALWAYS_SAFE ++ py "/") = true -> (c < 128)%N.
Proof.
  intros H. apply byte_in_In in H.
  assert (F : forallb (fun x => (x <? 128)%N) (_ALWAYS_SAFE ++ py "/") = true)
    by reflexivity.
  rewrite forallb_forall in F. apply N.ltb_lt. now apply F.
Qed.

Lemma utf8_char_ascii (c : N) : (c < 128)%N -> utf8_char c = [c].
Proof.
  intros H. unfold utf8_char.
  destruct (N.ltb_spec c 0x80); [reflexivity | lia].
Qed.

(** X14: a string made only of letters, digits and [_.-~/] is its own
    encoding: [quote] returns it unchanged (the empty string included). *)
Theorem quote_keeps_unreserved (s : str) :
  forallb (fun c => byte_in c (_ALWAYS_SAFE ++ py "/")) s = true ->
  quote s default_safe = Return s.
Proof.
  intros H.
  assert (A : forall c, In c s -> (c < 128)%N).
  { intros c I. apply safe_is_ascii.
    rewrite forallb_forall in H. now apply H. }
  assert (U : flat_map utf8_char s = s).
  { clear H. induction s as [| c s IH]; [reflexivity |].
    cbn [flat_map]. rewrite utf8_char_ascii by (apply A; now left).
    cbn [app]. f_equal. apply IH. intros x I. apply A. now right. }
  assert (S : has_surrogate s = false).
  { clear H U. induction s as [| c s IH]; [reflexivity |].
    unfold has_surrogate. cbn [existsb]. apply orb_false_iff. split.
    - assert (c < 128)%N by (apply A; now left).
      unfold is_surrogate. destruct (N.leb_spec 0xD800 c); [lia | reflexivity].
    - apply IH. intros x I. apply A. now right. }
  rewrite quote_text by exact S. unfold percent_encode. rewrite U.
  f_equal. now apply flat_map_quoter_safe.
Qed.

Lemma lor_byte (a b : N) : (a < 256)%N -> (b < 256)%N -> (N.lor a b < 256)%N.
Proof.
  intros A B.
  destruct (N.eq_dec (N.lor a b) 0) as [E | E]; [rewrite E; lia |].
  change 256%N with (2 ^ 8)%N. apply N.log2_lt_pow2; [lia |].
  rewrite N.log2_lor. apply N.max_lub_lt.
  - destruct (N.eq_dec a 0) as [-> | Z]; [simpl; lia |].
    apply N.log2_lt_pow2; [lia | exact A].
  - destruct (N.eq_dec b 0) as [-> | Z]; [simpl; lia |].
    apply N.log2_lt_pow2; [lia | exact B].
Qed.

Lemma continuation_byte (x : N) : (N.lor 0x80 (N.land x 0x3F) < 256)%N.
Proof.
  apply lor_byte; [lia |].
  change 0x3F%N with (N.ones 6). rewrite N.land_ones.
  assert (x mod 2 ^ 6 < 2 ^ 6)%N by (apply N.mod_lt; discriminate).
  change (2 ^ 6)%N with 64%N in *. lia.
Qed.

Lemma utf8_char_bytes (c : N) :
  (c <= 0x10FFFF)%N -> Forall (fun b => (b < 256)%N) (utf8_char c).
Proof.
  intros H. unfold utf8_char.
  destruct (N.ltb_spec c 0x80); [repeat constructor; lia |].
  destruct (N.ltb_spec c 0x800).
  { repeat constructor; [| apply continuation_byte].
    apply lor_byte; [lia |]. rewrite N.shiftr_div_pow2.
    change (2 ^ 6)%N with 64%N.
    apply N.Div0.div_lt_upper_bound. lia. }
  destruct (N.ltb_spec c 0x10000).
  { repeat constructor; try apply continuation_byte.
    apply lor_byte; [lia |]. rewrite N.shiftr_div_pow2.
    change (2 ^ 12)%N with 4096%N.
    apply N.Div0.div_lt_upper_bound. lia. }
  repeat constructor; try apply continuation_byte.
  apply lor_byte; [lia |]. rewrite N.shiftr_div_pow2.
  change (2 ^ 18)%N with 262144%N.
  apply N.Div0.div_lt_upper_bound. lia.
Qed.

Lemma hex_digit_safe (n : N) :
  (n < 16)%N -> byte_in (hex_digit n) URL_SAFE = true.
Proof.
  intros H.
  destruct n as [| p]; [reflexivity |].
  do 4 (try destruct p as [p | p |]); try reflexivity; lia.
Qed.

Lemma quoter_safe (b : N) :
  (b < 256)%N ->
  forallb (fun c => byte_in c URL_SAFE) (quoter (py "/") b) = true.
Proof.
  intros H. unfold quoter.
  destruct (byte_in b (_ALWAYS_SAFE ++ py "/")) eqn:S.
  - cbn [forallb]. rewrite andb_true_r.
    apply byte_in_In. apply byte_in_In in S. unfold URL_SAFE.
    apply in_app_iff. apply in_app_iff in S as [S | S]; [now left |].
    right. destruct S as [<- | []]. now left.
  - cbn [forallb]. rewrite !hex_digit_safe.
    + reflexivity.
    + apply N.mod_lt. discriminate.
    + apply N.Div0.div_lt_upper_bound. lia.
Qed.

(** X15: whatever the text, a quoted segment is made of letters, digits
    and [_.-~/%] only.  It holds no space and none of [?#&=+], so a title,
    subtitle or body cannot open a query string or a fragment in the
    address. *)
Theorem quoted_is_url_safe (s q : str) :
  Forall (fun c => (c <= 0x10FFFF)%N) s ->
  quote s default_safe = Return q ->
  forallb (fun c => byte_in c URL_SAFE) q = true /\
  forall c, In c (py " ?#&=+") -> ~ In c q.
Proof.
  intros V Q.
  assert (F : forallb (fun c => byte_in c URL_SAFE) q = true).
  { rewrite quote_cases in Q.
    destruct (has_surrogate s); [discriminate |]. injection Q as <-.
    unfold percent_encode.
    assert (B : Forall (fun b => (b < 256)%N) (flat_map utf8_char s)).
    { induction V as [| c s Hc V IH]; [constructor |].
      cbn [flat_map]. apply Forall_app. split; [| exact IH].
      now apply utf8_char_bytes. }
    induction B as [| b bs Hb B IH]; [reflexivity |].
    cbn [flat_map]. rewrite forallb_app, IH, quoter_safe by exact Hb.
    reflexivity. }
  split; [exact F |].
  intros c I J. rewrite forallb_forall in F. specialize (F c J).
  assert (N : forallb (fun x => negb (byte_in x URL_SAFE)) (py " ?#&=+") = true)
    by reflexivity.
  rewrite forallb_forall in N. specialize (N c I). now rewrite F in N.
Qed.

(** *** The scripts *)

Lemma transact_returns (r : Request) (w : world) :
  (exists v, fst (transact r w) = Return v) <-> accepted (network w (wire w) r).
Proof.
  unfold accepted. split.
  - intros [v H].
    destruct (transact_cases r w)
      as [[e [_ [_ T]]] | [[e [_ [_ T]]] | [[p [_ [_ T]]]
         | [[p [e [_ [_ [_ [_ T]]]]]] | [[p [e [_ [_ [_ [_ T]]]]]]
         | [[p [d [N [S [J T]]]]] | [p [x [_ [_ [_ [_ T]]]]]]]]]]]];
      rewrite T in H; try discriminate.
    destruct (code_is_200 d) eqn:C; [| discriminate].
    exists p, d. now repeat split.
  - intros [response [d [N [S [J C]]]]].
    rewrite (transact_return r response w N).
    rewrite (handle_response_dict response d _ S J), C. now eexists.
Qed.

(** A call of a script whose arguments pass: one exchange. *)
Lemma call_exchange {c : invocation} {r : Request} (p : process) :
  requests_of c (self (sys p)) = [r] ->
  call (invoke c) p =
  (fst (transact r (sys p)), {| sys := push r (sys p); out := out p |}).
Proof.
  intros H. unfold call. rewrite (invoke_transact c r _ H).
  rewrite (surjective_pairing (transact r (sys p))), transact_world.
  reflexivity.
Qed.

Ltac exchange r :=
  match goal with
  | |- context [call (send ?b ?t ?s ?u ?g ?i ?so ?c ?l ?a ?co ?ci) ?q] =>
      change (call (send b t s u g i so c l a co ci) q)
        with (call (invoke (Send b t s u g i so c l a co ci)) q);
      rewrite (@call_exchange (Send b t s u g i so c l a co ci) r q eq_refl)
  | |- context [call (send_post ?b ?t ?s ?k) ?q] =>
      change (call (send_post b t s k) q)
        with (call (invoke (SendPost b t s k)) q);
      rewrite (@call_exchange (SendPost b t s k) r q eq_refl)
  end.

Lemma bind_print {A} (line : str) (k : unit -> Script A) (q : process) :
  script_bind (print line) k q
  = match stdout_write (out q) line with
    | Some (c, t) => (Raise (Lib c t), q)
    | None => k tt {| sys := sys q; out := out q ++ [Printed line] |}
    end.
Proof.
  unfold script_bind, print.
  now destruct (stdout_write (out q) line) as [[c t] |].
Qed.

Lemma bind_sleep {A} (seconds : Z) (k : unit -> Script A) (q : process) :
  script_bind (sleep seconds) k q
  = k tt {| sys := sys q; out := out q ++ [Slept seconds] |}.
Proof. reflexivity. Qed.

Ltac script_facts :=
  split; [reflexivity |]; split; [reflexivity |]; split; [simpl; lia |];
  split; [reflexivity |].

Lemma usage_except_runs (e : exn) (q : process) :
  exists k lines,
    usage_except e = Some k /\
    sys (snd (k q)) = sys q /\
    out (snd (k q)) = out q ++ lines /\
    (List.length lines <= 2)%nat /\ forallb is_printed lines = true /\
    (fst (k q) = Return tt /\ (1 <= List.length lines)%nat \/
     exists c t prefix rest,
       fst (k q) = Raise (Lib c t) /\ In prefix handler_prefixes /\
       stdout_write (out q ++ lines) (prefix ++ rest) = Some (c, t)).
Proof.
  assert (P : forall prefix rest,
             In prefix handler_prefixes ->
             exists lines,
               sys (snd (print (prefix ++ rest) q)) = sys q /\
               out (snd (print (prefix ++ rest) q)) = out q ++ lines /\
               (List.length lines <= 1)%nat /\
               forallb is_printed lines = true /\
               (fst (print (prefix ++ rest) q) = Return tt /\
                lines = [Printed (prefix ++ rest)] \/
                exists c t,
                  fst (print (prefix ++ rest) q) = Raise (Lib c t) /\
                  lines = [] /\
                  stdout_write (out q) (prefix ++ rest) = Some (c, t))).
  { intros prefix rest I. unfold print.
    destruct (stdout_write (out q) (prefix ++ rest)) as [[c t] |] eqn:W.
    - exists []. cbn [fst snd sys out]. rewrite app_nil_r.
      script_facts. right. now exists c, t.
    - exists [Printed (prefix ++ rest)]. cbn [fst snd sys out].
      script_facts. now left. }
  assert (One : forall prefix rest,
             In prefix handler_prefixes ->
             exists lines,
               sys (snd (print (prefix ++ rest) q)) = sys q /\
               out (snd (print (prefix ++ rest) q)) = out q ++ lines /\
               (List.length lines <= 2)%nat /\
               forallb is_printed lines = true /\
               (fst (print (prefix ++ rest) q) = Return tt /\
                (1 <= List.length lines)%nat \/
                exists c t prefix' rest',
                  fst (print (prefix ++ rest) q) = Raise (Lib c t) /\
                  In prefix' handler_prefixes /\
                  stdout_write (out q ++ lines) (prefix' ++ rest')
                  = Some (c, t))).
  { intros prefix rest I.
    destruct (P prefix rest I) as [lines [S [O [L [F D]]]]].
    destruct D as [[R ->] | [c [t [R [-> W]]]]];
      eexists; (split; [exact S |]); (split; [exact O |]);
      (split; [simpl; lia |]); (split; [exact F |]).
    - left. split; [exact R | simpl; lia].
    - right. exists c, t, prefix, rest. rewrite app_nil_r.
      split; [exact R |]. split; [exact I | exact W]. }
  destruct e as [[| |] m st details | c t]; cbn [usage_except].
  - destruct (One (py "Network error: ")
                (str_exn (Bark BarkNetworkException m st details)))
      as [lines H]; [simpl; tauto |]. do 2 eexists; split; [reflexivity | eassumption].
  - set (line := py "Server error: " ++
                 str_exn (Bark BarkServerException m st details)) in *.
    assert (Q : forall k',
               (k' = script_ret tt \/
                exists rest, k' = print (py "Response details: " ++ rest)) ->
               exists lines',
                 sys (snd (script_bind (print line) (fun _ => k') q)) = sys q /\
                 out (snd (script_bind (print line) (fun _ => k') q))
                 = out q ++ lines' /\
                 (List.length lines' <= 2)%nat /\
                 forallb is_printed lines' = true /\
                 (fst (script_bind (print line) (fun _ => k') q) = Return tt /\
                  (1 <= List.length lines')%nat \/
                  exists c t prefix' rest',
                    fst (script_bind (print line) (fun _ => k') q)
                    = Raise (Lib c t) /\
                    In prefix' handler_prefixes /\
                    stdout_write (out q ++ lines') (prefix' ++ rest')
                    = Some (c, t))).
    { intros k' K. rewrite bind_print.
      destruct (stdout_write (out q) line) as [[c t] |] eqn:W.
      - exists []. cbn [fst snd sys out]. rewrite app_nil_r.
        script_facts. right.
        exists c, t, (py "Server error: "),
          (str_exn (Bark BarkServerException m st details)).
        split; [reflexivity |]. split; [simpl; tauto | exact W].
      - destruct K as [-> | [rest ->]].
        + exists [Printed line]. cbn [fst snd sys out script_ret].
          script_facts. left. split; [reflexivity |].
          simpl; lia.
        + unfold print.
          destruct (stdout_write (out {| sys := sys q;
                                         out := out q ++ [Printed line] |})
                      (py "Response details: " ++ rest))
            as [[c t] |] eqn:W'; cbn [fst snd sys out] in *.
          * exists [Printed line]. script_facts. right.
            exists c, t, (py "Response details: "), rest.
            split; [reflexivity |]. split; [simpl; tauto | exact W'].
          * exists [Printed line; Printed (py "Response details: " ++ rest)].
            rewrite <- app_assoc. script_facts.
            left. split; [reflexivity | simpl; lia]. }
    destruct details as [d |].
    + destruct (value_truth d).
      * destruct (Q (print (py "Response details: " ++ format d)))
          as [lines' H']; [right; now eexists |]. do 2 eexists; split; [reflexivity | eassumption].
      * destruct (Q (script_ret tt)) as [lines' H']; [now left |].
        do 2 eexists; split; [reflexivity | eassumption].
    + destruct (Q (script_ret tt)) as [lines' H']; [now left |].
      do 2 eexists; split; [reflexivity | eassumption].
  - destruct (One (py "Client error: ")
                (str_exn (Bark BarkClientException m st details)))
      as [lines H]; [simpl; tauto |]. do 2 eexists; split; [reflexivity | eassumption].
  - destruct (One (py "Unexpected error: ") (str_exn (Lib c t)))
      as [lines H]; [simpl; tauto |]. do 2 eexists; split; [reflexivity | eassumption].
Qed.

Lemma usage_body_runs (p : process) :
  usage_body p =
  match fst (transact hello_request (started p)) with
  | Raise e =>
      (Raise e,
       {| sys := push hello_request (started p); out := out p |})
  | Return v1 =>
      match stdout_write (out p) (format v1) with
      | Some (c, t) =>
          (Raise (Lib c t),
           {| sys := push hello_request (started p); out := out p |})
      | None =>
          match fst (transact usage_request
                       (push hello_request (started p))) with
          | Raise e =>
              (Raise e,
               {| sys := push usage_request (push hello_request (started p));
                  out := out p ++ [Printed (format v1)] |})
          | Return v2 =>
              match stdout_write (out p ++ [Printed (format v1)])
                      (format v2) with
              | Some (c, t) =>
                  (Raise (Lib c t),
                   {| sys := push usage_request
                               (push hello_request (started p));
                      out := out p ++ [Printed (format v1)] |})
              | None =>
                  (Return tt,
                   {| sys := push usage_request
                               (push hello_request (started p));
                      out := (out p ++ [Printed (format v1)]) ++
                             [Printed (format v2)] |})
              end
          end
      end
  end.
Proof.
  unfold usage_body. unfold script_bind at 1.
  change (construct (__init__ (Some (py "YOUR_BARK_KEY")) None) p)
    with (Return tt, {| sys := started p; out := out p |}).
  cbv iota. unfold script_bind at 1. exchange hello_request.
  cbn [sys out].
  destruct (fst (transact hello_request (started p))) as [v1 | e];
    [| reflexivity].
  unfold script_bind at 1. unfold print at 1. cbn [sys out].
  destruct (stdout_write (out p) (format v1)) as [[c t] |]; [reflexivity |].
  unfold script_bind at 1. exchange usage_request. cbn [sys out].
  destruct (fst (transact usage_request (push hello_request (started p))))
    as [v2 | e]; [| reflexivity].
  unfold print. cbn [sys out].
  now destruct (stdout_write (out p ++ [Printed (format v1)]) (format v2))
    as [[c t] |].
Qed.

Lemma wire_one_not_two (ws : list Request) (a b : Request) :
  ws ++ [a] <> ws ++ [a; b].
Proof. intros H. apply app_inv_head in H. discriminate. Qed.

(** X16: the usage example of bark_sdk.py, whatever the network and the
    standard output do.  It keeps its client, sends the request of its
    first notification and at most the second one after it, the second
    only when the first was answered with status 200 and an object whose
    ['code'] equals 200, and prints at most three lines.  An exception
    leaves it only when a [print] of one of its [except] clauses raised:
    the exception is the one of that write.  When the standard output
    takes every line, nothing is let out: the example returns, it has
    printed at least one line, and it sends the second request exactly
    when the first was answered so. *)
Theorem usage_example_contained (p : process) :
  self (sys (snd (usage_example p))) = script_client /\
  (exists lines,
     out (snd (usage_example p)) = out p ++ lines /\
     (List.length lines <= 3)%nat /\
     forallb is_printed lines = true /\
     (fst (usage_example p) = Return tt -> (1 <= List.length lines)%nat) /\
     (forall e,
        fst (usage_example p) = Raise e ->
        exists c t prefix rest,
          e = Lib c t /\ In prefix handler_prefixes /\
          stdout_write (out p ++ lines) (prefix ++ rest) = Some (c, t))) /\
  (wire (sys (snd (usage_example p))) = wire (sys p) ++ [hello_request] \/
   wire (sys (snd (usage_example p)))
   = wire (sys p) ++ [hello_request; usage_request]) /\
  (wire (sys (snd (usage_example p)))
   = wire (sys p) ++ [hello_request; usage_request] ->
   accepted (network (sys p) (wire (sys p)) hello_request)) /\
  (stdout_open ->
   fst (usage_example p) = Return tt /\
   (accepted (network (sys p) (wire (sys p)) hello_request) ->
    wire (sys (snd (usage_example p)))
    = wire (sys p) ++ [hello_request; usage_request]) /\
   (~ accepted (network (sys p) (wire (sys p)) hello_request) ->
    wire (sys (snd (usage_example p))) = wire (sys p) ++ [hello_request])).
Proof.
  assert (Handled : forall e q,
             exists r : outcome unit * process,
               script_try (fun _ => (Raise e, q)) usage_except p = r /\
               sys (snd r) = sys q /\
               exists lines,
                 out (snd r) = out q ++ lines /\
                 (List.length lines <= 2)%nat /\
                 forallb is_printed lines = true /\
                 (fst r = Return tt /\ (1 <= List.length lines)%nat \/
                  exists c t prefix rest,
                    fst r = Raise (Lib c t) /\ In prefix handler_prefixes /\
                    stdout_write (out q ++ lines) (prefix ++ rest)
                    = Some (c, t))).
  { intros e q. unfold script_try.
    destruct (usage_except_runs e q) as [k [lines [-> [S [O [L [F D]]]]]]].
    eexists. split; [reflexivity |]. split; [exact S |].
    exists lines. now repeat split. }
  pose proof (transact_returns hello_request (started p)) as A.
  cbn [started network wire] in A.
  assert (E : usage_example p
              = script_try (fun _ => usage_body p) usage_except p)
    by reflexivity.
  rewrite usage_body_runs in E.
  destruct (fst (transact hello_request (started p))) as [v1 | e1].
  - assert (A1 : accepted (network (sys p) (wire (sys p)) hello_request))
      by (apply A; now eexists).
    destruct (stdout_write (out p) (format v1)) as [[c1 t1] |] eqn:W1.
    + destruct (Handled (Lib c1 t1)
                  {| sys := push hello_request (started p); out := out p |})
        as [r [R [S [lines [O [L [F D]]]]]]].
      rewrite E, R, S, O. cbn [sys out self push started wire].
      split; [reflexivity |]. split.
      { exists lines. split; [reflexivity |]. split; [lia |].
        split; [exact F |]. split.
        - intros He. destruct D as [[_ D] | [c [t [x [y [D _]]]]]]; [exact D |].
          congruence.
        - intros e He. destruct D as [[D _] | [c [t [x [y [D [I W]]]]]]];
            [congruence |].
          exists c, t, x, y. repeat split; [congruence | exact I | exact W]. }
      split; [now left |]. split; [intros _; exact A1 |].
      intros Open. rewrite Open in W1. discriminate.
    + destruct (fst (transact usage_request (push hello_request (started p))))
        as [v2 | e2].
      * destruct (stdout_write (out p ++ [Printed (format v1)]) (format v2))
          as [[c2 t2] |] eqn:W2.
        -- destruct (Handled (Lib c2 t2)
                       {| sys := push usage_request
                                   (push hello_request (started p));
                          out := out p ++ [Printed (format v1)] |})
             as [r [R [S [lines [O [L [F D]]]]]]].
           rewrite E, R, S, O. cbn [sys out self push started wire].
           rewrite <- !app_assoc. cbn [app].
           split; [reflexivity |]. split.
           { exists (Printed (format v1) :: lines). split; [reflexivity |].
             split; [simpl; lia |]. split; [exact F |]. split.
             - intros _. simpl. lia.
             - intros e He.
               destruct D as [[D _] | [c [t [x [y [D [I W]]]]]]];
                 [congruence |].
               cbn [out] in W. rewrite <- app_assoc in W.
               exists c, t, x, y.
               repeat split; [congruence | exact I | exact W]. }
           split; [now right |]. split; [intros _; exact A1 |].
           intros Open. rewrite Open in W2. discriminate.
        -- rewrite E. unfold script_try.
           cbn [fst snd sys out self push started wire].
           rewrite <- !app_assoc. cbn [app].
           split; [reflexivity |]. split.
           { exists [Printed (format v1); Printed (format v2)].
             split; [reflexivity |]. split; [simpl; lia |].
             split; [reflexivity |]. split; [intros _; simpl; lia |].
             intros e He. discriminate. }
           split; [now right |]. split; [intros _; exact A1 |].
           intros _. split; [reflexivity |]. split; [reflexivity |].
           intros N. contradiction.
      * destruct (Handled e2
                    {| sys := push usage_request
                                (push hello_request (started p));
                       out := out p ++ [Printed (format v1)] |})
          as [r [R [S [lines [O [L [F D]]]]]]].
        rewrite E, R, S, O. cbn [sys out self push started wire].
        rewrite <- !app_assoc. cbn [app].
        split; [reflexivity |]. split.
        { exists (Printed (format v1) :: lines). split; [reflexivity |].
          split; [simpl; lia |]. split; [exact F |]. split.
          - intros _. simpl. lia.
          - intros e He.
            destruct D as [[D _] | [c [t [x [y [D [I W]]]]]]];
              [congruence |].
            cbn [out] in W. rewrite <- app_assoc in W.
            exists c, t, x, y.
            repeat split; [congruence | exact I | exact W]. }
        split; [now right |]. split; [intros _; exact A1 |].
        intros Open. split.
        { destruct D as [[D _] | [c [t [x [y [_ [_ W]]]]]]]; [exact D |].
          rewrite Open in W. discriminate. }
        split; [reflexivity |]. intros N. contradiction.
  - assert (A1 : ~ accepted (network (sys p) (wire (sys p)) hello_request)).
    { intros H. apply A in H as [v H]. discriminate. }
    destruct (Handled e1
                {| sys := push hello_request (started p); out := out p |})
      as [r [R [S [lines [O [L [F D]]]]]]].
    rewrite E, R, S, O. cbn [sys out self push started wire].
    split; [reflexivity |]. split.
    { exists lines. split; [reflexivity |]. split; [lia |].
      split; [exact F |]. split.
      - intros He. destruct D as [[_ D] | [c [t [x [y [D _]]]]]]; [exact D |].
        congruence.
      - intros e He. destruct D as [[D _] | [c [t [x [y [D [I W]]]]]]];
          [congruence |].
        exists c, t, x, y. repeat split; [congruence | exact I | exact W]. }
    split; [now left |]. split.
    { intros H. now apply wire_one_not_two in H. }
    intros Open. split.
    { destruct D as [[D _] | [c [t [x [y [_ [_ W]]]]]]]; [exact D |].
      rewrite Open in W. discriminate. }
    split; [intros H; contradiction | reflexivity].
Qed.

Lemma example_call_exchange (p : process) (k : nat) :
  (k < 4)%nat ->
  invoke (example_call k) (example_state p k)
  = transact (example_request k) (example_state p k).
Proof.
  intros H. apply invoke_transact.
  destruct k as [| [| [| [| k]]]]; try reflexivity. lia.
Qed.

Ltac script_print E W :=
  rewrite bind_print in E; cbn [sys out] in E;
  match type of E with
  | context [stdout_write ?evs ?line] =>
      destruct (stdout_write evs line) as [[? ?] |] eqn:W
  end.

Ltac script_sleep E :=
  rewrite bind_sleep in E; cbv beta in E; cbn [sys out] in E.

Ltac script_call E r :=
  unfold script_bind at 1 in E;
  match type of E with
  | context [call (send ?b ?t ?s ?u ?g ?i ?so ?c ?l ?a ?co ?ci) ?q] =>
      change (call (send b t s u g i so c l a co ci) q)
        with (call (invoke (Send b t s u g i so c l a co ci)) q) in E;
      rewrite (@call_exchange (Send b t s u g i so c l a co ci) r q eq_refl)
        in E
  | context [call (send_post ?b ?t ?s ?k) ?q] =>
      change (call (send_post b t s k) q)
        with (call (invoke (SendPost b t s k)) q) in E;
      rewrite (@call_exchange (SendPost b t s k) r q eq_refl) in E
  end;
  cbn [sys out] in E.

(** What holds wherever [main] stops, after [n] requests. *)
Ltac script_stop E n :=
  rewrite E; exists n; eexists;
  cbn [fst snd sys out wire push started self];
  rewrite <- ?app_assoc;
  split; [lia |];
  split; [reflexivity |];
  split; [reflexivity |];
  split; [reflexivity |];
  split; [intros [| [| [| k]]] Hk; first [lia | assumption] |].

(** [main] stops because the write [W] raised. *)
Ltac script_write_failed E n W :=
  script_stop E n;
  split; [intros H; discriminate H |];
  intros e He; injection He as <-; left;
  do 3 eexists; split; [reflexivity |];
  rewrite <- ?app_assoc in W; exact W.

(** [main] stops because call [k] raised: [T] is the outcome of the call
    and [A] what makes a call return. *)
Ltac script_call_failed E k T A :=
  script_stop E (S k);
  split; [intros H; discriminate H |];
  intros e He; injection He as <-; right;
  exists k; split; [reflexivity |];
  split; [intros H; apply A in H as [v H]; discriminate H |];
  split; [rewrite example_call_exchange by lia; exact T |];
  split; reflexivity.

(** X17: [main] of example.py, whatever the network and the standard
    output do.  It stops after [n] of its four requests, sent in the order
    of the script, three GETs and then one POST; the calls before the last
    one returned.  It returns only after all four, each answered with
    status 200 and an object whose ['code'] equals 200, with eight lines
    printed and three seconds slept.  It raises only what a [print] raised
    or what its call number [k] raised, and then that call was the last:
    [k + 1] requests were sent, [2 k + 1] lines printed and [k] seconds
    slept.  When the standard output takes every line, the first call
    whose answer is not such an answer ends the script with the exception
    of that call and nothing is sent after it; and when all four answers
    are such answers, [main] returns. *)
Theorem main_stops_at_first_failure (p : process) :
  (exists n evs,
     (n <= 4)%nat /\
     wire (sys (snd (main p))) = wire (sys p) ++ firstn n example_requests /\
     self (sys (snd (main p))) = script_client /\
     out (snd (main p)) = out p ++ evs /\
     (forall k, (S k < n)%nat -> accepted (example_answer p k)) /\
     (fst (main p) = Return tt ->
      n = 4%nat /\ printed evs = 8%nat /\ slept evs = 3%Z /\
      accepted (example_answer p 3)) /\
     (forall e,
        fst (main p) = Raise e ->
        (exists c t line,
           e = Lib c t /\ stdout_write (out p ++ evs) line = Some (c, t)) \/
        (exists k,
           n = S k /\ ~ accepted (example_answer p k) /\
           fst (invoke (example_call k) (example_state p k)) = Raise e /\
           printed evs = (2 * k + 1)%nat /\ slept evs = Z.of_nat k))) /\
  (stdout_open ->
   (forall k,
      (k < 4)%nat ->
      (forall j, (j < k)%nat -> accepted (example_answer p j)) ->
      ~ accepted (example_answer p k) ->
      exists e,
        fst (main p) = Raise e /\
        fst (invoke (example_call k) (example_state p k)) = Raise e /\
        wire (sys (snd (main p)))
        = wire (sys p) ++ firstn (S k) example_requests) /\
   ((forall k, (k < 4)%nat -> accepted (example_answer p k)) ->
    fst (main p) = Return tt /\
    wire (sys (snd (main p))) = wire (sys p) ++ example_requests)).
Proof.
  assert (Run :
    exists n evs,
      (n <= 4)%nat /\
      wire (sys (snd (main p))) = wire (sys p) ++ firstn n example_requests /\
      self (sys (snd (main p))) = script_client /\
      out (snd (main p)) = out p ++ evs /\
      (forall k, (S k < n)%nat -> accepted (example_answer p k)) /\
      (fst (main p) = Return tt ->
       n = 4%nat /\ printed evs = 8%nat /\ slept evs = 3%Z /\
       accepted (example_answer p 3)) /\
      (forall e,
         fst (main p) = Raise e ->
         (exists c t line,
            e = Lib c t /\ stdout_write (out p ++ evs) line = Some (c, t)) \/
         (exists k,
            n = S k /\ ~ accepted (example_answer p k) /\
            fst (invoke (example_call k) (example_state p k)) = Raise e /\
            printed evs = (2 * k + 1)%nat /\ slept evs = Z.of_nat k))).
  { pose proof (eq_refl (main p)) as E. unfold main at 2 in E.
    unfold script_bind at 1 in E.
    change (construct (__init__ (Some (py "YOUR_BARK_KEY")) None) p)
      with (Return tt, {| sys := started p; out := out p |}) in E.
    cbv iota in E.
    script_print E W0.
    { rewrite E. exists 0%nat, []. cbn [fst snd sys out firstn].
      rewrite !app_nil_r.
      split; [lia |]. split; [reflexivity |]. split; [reflexivity |].
      split; [reflexivity |]. split; [intros k Hk; lia |].
      split; [intros H; discriminate H |].
      intros e He. injection He as <-. left. do 3 eexists.
      split; [reflexivity | exact W0]. }
    script_call E hello_request.
    pose proof (transact_returns hello_request (started p)) as A0.
    destruct (fst (transact hello_request (started p))) as [v0 | e0] eqn:T0;
      [| script_call_failed E 0%nat T0 A0].
    assert (B0 : accepted (example_answer p 0)) by (apply A0; now eexists).
    script_print E W1; [script_write_failed E 1%nat W1 |].
    script_sleep E.
    script_print E W2; [script_write_failed E 1%nat W2 |].
    script_call E titled_request.
    pose proof (transact_returns titled_request (push hello_request (started p))) as A1.
    destruct (fst (transact titled_request (push hello_request (started p))))
      as [v1 | e1] eqn:T1;
      [| script_call_failed E 1%nat T1 A1].
    assert (B1 : accepted (example_answer p 1)) by (apply A1; now eexists).
    script_print E W3; [script_write_failed E 2%nat W3 |].
    script_sleep E.
    script_print E W4; [script_write_failed E 2%nat W4 |].
    script_call E full_request.
    pose proof (transact_returns full_request (push titled_request (push hello_request (started p)))) as A2.
    destruct (fst (transact full_request (push titled_request (push hello_request (started p)))))
      as [v2 | e2] eqn:T2;
      [| script_call_failed E 2%nat T2 A2].
    assert (B2 : accepted (example_answer p 2)) by (apply A2; now eexists).
    script_print E W5; [script_write_failed E 3%nat W5 |].
    script_sleep E.
    script_print E W6; [script_write_failed E 3%nat W6 |].
    script_call E posted_request.
    pose proof (transact_returns posted_request
      (push full_request
       (push titled_request (push hello_request (started p))))) as A3.
    destruct (fst (transact posted_request
      (push full_request
       (push titled_request (push hello_request (started p))))))
      as [v3 | e3] eqn:T3;
      [| script_call_failed E 3%nat T3 A3].
    assert (B3 : accepted (example_answer p 3)) by (apply A3; now eexists).
    unfold print in E. cbn [sys out] in E.
    match type of E with
    | context [stdout_write ?evs ?line] =>
        destruct (stdout_write evs line) as [[c t] |] eqn:W7
    end; [script_write_failed E 4%nat W7 |].
    script_stop E 4%nat.
    split; [| intros e He; discriminate He].
    intros _. split; [reflexivity |]. split; [reflexivity |].
    split; [reflexivity | exact B3]. }
  split; [exact Run |].
  destruct Run as [n [evs [Ln [Wn [Sn [On [Acc [Ret Rai]]]]]]]].
  intros Open.
  assert (Quiet : forall e,
             fst (main p) = Raise e ->
             exists k,
               n = S k /\ ~ accepted (example_answer p k) /\
               fst (invoke (example_call k) (example_state p k)) = Raise e).
  { intros e F. destruct (Rai e F) as [[c [t [line [_ W]]]] | [k [Nk [R [I _]]]]].
    - rewrite Open in W. discriminate W.
    - now exists k. }
  split.
  - intros k Hk Before Refused.
    destruct (fst (main p)) as [[] | e] eqn:F.
    + exfalso. destruct (Ret eq_refl) as [Nn [_ [_ Last]]]. apply Refused.
      destruct (Nat.eq_dec k 3) as [-> | D]; [exact Last |].
      apply Acc. lia.
    + destruct (Quiet e eq_refl) as [k' [Nn [R I]]].
      assert (K : k' = k).
      { destruct (lt_eq_lt_dec k k') as [[L | K'] | L]; [| now symmetry |].
        - exfalso. apply Refused, Acc. lia.
        - exfalso. apply R, Before, L. }
      subst k'. exists e. split; [reflexivity |]. split; [exact I |].
      now rewrite Wn, Nn.
  - intros All. destruct (fst (main p)) as [[] | e] eqn:F.
    + destruct (Ret eq_refl) as [Nn _]. split; [reflexivity |].
      now rewrite Wn, Nn.
    + exfalso. destruct (Quiet e eq_refl) as [k [Nn [R _]]].
      apply R, All. lia.
Qed.

(** *** The endpoint against the encoding of the specification *)

Example encode_space : encode (py "A B") = py "A%20B".
Proof. reflexivity. Qed.

Example encode_slash : encode (py "C/D") = py "C%2FD".
Proof. reflexivity. Qed.

Example encode_non_ascii : encode [233; 0x20AC; 0x1F600]%N
                           = py "%C3%A9%E2%82%AC%F0%9F%98%80".
Proof. reflexivity. Qed.

Lemma lor_add_high (k n b : N) :
  (b < 2 ^ n)%N -> N.lor (k * 2 ^ n) b = (k * 2 ^ n + b)%N.
Proof.
  intros H.
  assert (L : N.land (k * 2 ^ n) b = 0%N).
  { apply N.bits_inj. intros m. rewrite N.land_spec, N.bits_0.
    destruct (N.lt_ge_cases m n) as [Lt | Ge].
    - now rewrite N.mul_pow2_bits_low.
    - destruct (N.eq_dec b 0) as [-> | Z];
        [now rewrite N.bits_0, andb_false_r |].
      rewrite (N.bits_above_log2 b m), andb_false_r; [reflexivity |].
      apply N.log2_lt_pow2; [lia |].
      apply N.lt_le_trans with (2 ^ n)%N; [exact H |].
      apply N.pow_le_mono_r; [discriminate | exact Ge]. }
  now rewrite <- (N.lxor_lor _ _ L), <- (N.add_nocarry_lxor _ _ L).
Qed.

Lemma continuation_octet (x : N) :
  N.lor 0x80 (N.land x 0x3F) = (128 + x mod 64)%N.
Proof.
  change 0x3F%N with (N.ones 6). rewrite N.land_ones.
  change 0x80%N with (2 * 2 ^ 6)%N. rewrite lor_add_high.
  - reflexivity.
  - apply N.mod_lt. discriminate.
Qed.

(** On the code points of Python, the octets that [quote] computes with
    shifts and masks are those of the arithmetic. *)
Lemma utf8_char_octets (c : N) :
  (c <= 0x10FFFF)%N -> utf8_char c = utf8_octets c.
Proof.
  intros H. unfold utf8_char, utf8_octets.
  change 0x80%N with 128%N. change 0x800%N with 2048%N.
  change 0x10000%N with 65536%N.
  destruct (N.ltb_spec c 128); [reflexivity |].
  rewrite !N.shiftr_div_pow2.
  change (2 ^ 6)%N with 64%N. change (2 ^ 12)%N with 4096%N.
  change (2 ^ 18)%N with 262144%N.
  assert (S : forall k n b, (b < 2 ^ n)%N ->
                            N.lor (k * 2 ^ n) b = (k * 2 ^ n + b)%N)
    by apply lor_add_high.
  destruct (N.ltb_spec c 2048).
  { rewrite continuation_octet.
    change 0xC0%N with (3 * 2 ^ 6)%N. rewrite S; [reflexivity |].
    change (2 ^ 6)%N with 64%N. apply N.Div0.div_lt_upper_bound. lia. }
  destruct (N.ltb_spec c 65536).
  { rewrite !continuation_octet.
    change 0xE0%N with (14 * 2 ^ 4)%N. rewrite S; [reflexivity |].
    change (2 ^ 4)%N with 16%N. apply N.Div0.div_lt_upper_bound. lia. }
  rewrite !continuation_octet.
  change 0xF0%N with (30 * 2 ^ 3)%N. rewrite S; [reflexivity |].
  change (2 ^ 3)%N with 8%N. apply N.Div0.div_lt_upper_bound. lia.
Qed.

Lemma octets_all (b : N) : (b < 256)%N -> In b octets.
Proof.
  intros H. unfold octets. apply in_map_iff. exists (N.to_nat b).
  split; [apply N2Nat.id |]. apply in_seq. lia.
Qed.

(** Apart from the slash, [quote] escapes an octet as the specification
    does. *)
Lemma quoter_escape (b : N) :
  (b < 256)%N -> b <> 47%N -> quoter (py "/") b = escape_octet b.
Proof.
  intros H S.
  assert (T : forallb (fun x => (x =? 47)%N ||
                                str_eqb (quoter (py "/") x) (escape_octet x))
                octets = true) by (vm_compute; reflexivity).
  rewrite forallb_forall in T. specialize (T b (octets_all b H)).
  apply orb_true_iff in T as [T | T].
  - apply N.eqb_eq in T. contradiction.
  - now apply str_eqb_eq.
Qed.

Lemma utf8_octets_bytes (c : N) :
  (c <= 0x10FFFF)%N -> c <> 47%N ->
  Forall (fun b => (b < 256)%N /\ b <> 47%N) (utf8_octets c).
Proof.
  intros H S. unfold utf8_octets.
  assert (M : forall x, (x mod 64 < 64)%N)
    by (intros x; apply N.mod_lt; discriminate).
  pose proof (M c). pose proof (M (c / 64)%N). pose proof (M (c / 4096)%N).
  pose proof (N.le_0_l (c / 64)). pose proof (N.le_0_l (c / 4096)).
  pose proof (N.le_0_l (c / 262144)). pose proof (N.le_0_l (c mod 64)).
  pose proof (N.le_0_l ((c / 64) mod 64)).
  pose proof (N.le_0_l ((c / 4096) mod 64)).
  destruct (N.ltb_spec c 128);
    [repeat (apply Forall_cons; [split; lia |]); apply Forall_nil |].
  destruct (N.ltb_spec c 2048).
  { assert (c / 64 < 32)%N by (apply N.Div0.div_lt_upper_bound; lia).
    repeat (apply Forall_cons; [split; lia |]); apply Forall_nil. }
  destruct (N.ltb_spec c 65536).
  { assert (c / 4096 < 16)%N by (apply N.Div0.div_lt_upper_bound; lia).
    repeat (apply Forall_cons; [split; lia |]); apply Forall_nil. }
  assert (c / 262144 < 5)%N by (apply N.Div0.div_lt_upper_bound; lia).
  repeat (apply Forall_cons; [split; lia |]); apply Forall_nil.
Qed.

(** On a plain segment [quote] computes the encoding of the
    specification. *)
Lemma plain_segment_encode (s : str) :
  plain_segment s = true ->
  has_surrogate s = false /\ percent_encode s = encode s.
Proof.
  unfold plain_segment, has_surrogate, percent_encode, encode.
  induction s as [| c s IH]; [now split |].
  cbn [forallb existsb flat_map]. intros H.
  apply andb_true_iff in H as [Hc Hs].
  apply andb_true_iff in Hc as [Hc S]. apply andb_true_iff in Hc as [R G].
  apply N.leb_le in R. apply negb_true_iff in G, S. apply N.eqb_neq in S.
  destruct (IH Hs) as [IH1 IH2]. split.
  - unfold is_surrogate at 1. now rewrite G, IH1.
  - rewrite !flat_map_app, IH2, (utf8_char_octets c R). f_equal.
    pose proof (utf8_octets_bytes c R S) as B.
    induction B as [| b bs [Hb Sb] B IHB]; [reflexivity |].
    cbn [flat_map]. now rewrite IHB, (quoter_escape b Hb Sb).
Qed.

Lemma send_refused_by_surrogate body title subtitle url group icon sound call
  level is_archive copy ciphertext (bad : str) (w : world) :
  truth body = true -> send_level_invalid level = false ->
  find has_surrogate (segments body title subtitle) = Some bad ->
  send body title subtitle url group icon sound call level is_archive copy
    ciphertext w
  = (Raise (Bark BarkClientException
              (py "Error building endpoint URL: " ++ encode_error_text bad)
              None None), w).
Proof.
  intros B L F. unfold send. rewrite B, L. cbn [negb].
  unfold try_except at 1. unfold bind at 1.
  now rewrite build_endpoint_segments, F.
Qed.

Lemma send_sends body title subtitle url group icon sound call level
  is_archive copy ciphertext (w : world) :
  truth body = true -> send_level_invalid level = false ->
  find has_surrogate (segments body title subtitle) = None ->
  wire (snd (send body title subtitle url group icon sound call level
               is_archive copy ciphertext w))
  = wire w ++
    [get_request (base_url (self w) ++ path_of (segments body title subtitle))
       (send_params url group icon sound call level is_archive copy
          ciphertext)].
Proof.
  intros B L F.
  change (send body title subtitle url group icon sound call level is_archive
            copy ciphertext)
    with (invoke (Send body title subtitle url group icon sound call level
                    is_archive copy ciphertext)).
  now rewrite invoke_world, send_accepted, F.
Qed.

Lemma lone_surrogate_refused (s : str) :
  lone_surrogate s = true -> has_surrogate s = true.
Proof.
  unfold lone_surrogate, has_surrogate. intros H.
  apply existsb_exists in H as [c [I H]]. apply existsb_exists.
  exists c. split; [exact I |]. exact H.
Qed.

Lemma segments_body (body : str) (title subtitle : option str) :
  In body (segments body title subtitle).
Proof.
  unfold segments. destruct title as [t |]; [destruct subtitle as [s |] |];
    repeat match goal with
           | |- context [if ?b then _ else _] => destruct b
           end; simpl; tauto.
Qed.

Lemma segments_title (body t : str) (subtitle : option str) :
  t <> [] -> In t (segments body (Some t) subtitle).
Proof.
  intros T. destruct t as [| c t]; [contradiction |].
  unfold segments. destruct subtitle as [s |]; cbn [truth andb];
    repeat match goal with
           | |- context [if ?b then _ else _] => destruct b
           end; simpl; tauto.
Qed.

Lemma segments_subtitle (body t s : str) :
  t <> [] -> s <> [] -> In s (segments body (Some t) (Some s)).
Proof.
  intros T S. destruct t as [| c t]; [contradiction |].
  destruct s as [| c' s]; [contradiction |]. simpl. tauto.
Qed.

(** C4: for a request with a non-empty body and an accepted
    level, [send] takes as segments the title and the subtitle when both
    are non-empty, the title alone when only it is non-empty, and then the
    body.  If one of these segments holds a lone surrogate, it raises the
    BarkClientException "Error building endpoint URL: ..." and sends
    nothing.  If they are plain (Unicode text without a slash), it sends
    one GET whose address is the base address followed, for each segment
    in that order, by a slash and the percent-encoding of the segment, in
    which every octet of the UTF-8 form other than a letter, a digit or one
    of [- . _ ~] is written [%XX]. *)
Theorem send_path_of_plain_segments body title subtitle url group icon sound
  call level is_archive copy ciphertext (w : world) :
  truth body = true ->
  send_level_invalid level = false ->
  ((lone_surrogate body = true \/
    (exists t, title = Some t /\ t <> [] /\ lone_surrogate t = true) \/
    (exists t s, title = Some t /\ t <> [] /\
                 subtitle = Some s /\ s <> [] /\ lone_surrogate s = true)) ->
   exists m,
     send body title subtitle url group icon sound call level is_archive copy
       ciphertext w
     = (Raise (Bark BarkClientException
                 (py "Error building endpoint URL: " ++ m) None None), w)) /\
  (forall t s, title = Some t -> subtitle = Some s -> t <> [] -> s <> [] ->
   plain_segment t = true -> plain_segment s = true ->
   plain_segment body = true ->
   wire (snd (send body title subtitle url group icon sound call level
                is_archive copy ciphertext w))
   = wire w ++
     [get_request
        (base_url (self w) ++ py "/" ++ encode t ++ py "/" ++ encode s ++
         py "/" ++ encode body)
        (send_params url group icon sound call level is_archive copy
           ciphertext)]) /\
  (forall t, title = Some t -> t <> [] -> truthy subtitle = false ->
   plain_segment t = true -> plain_segment body = true ->
   wire (snd (send body title subtitle url group icon sound call level
                is_archive copy ciphertext w))
   = wire w ++
     [get_request
        (base_url (self w) ++ py "/" ++ encode t ++ py "/" ++ encode body)
        (send_params url group icon sound call level is_archive copy
           ciphertext)]) /\
  (truthy title = false -> plain_segment body = true ->
   wire (snd (send body title subtitle url group icon sound call level
                is_archive copy ciphertext w))
   = wire w ++
     [get_request (base_url (self w) ++ py "/" ++ encode body)
        (send_params url group icon sound call level is_archive copy
           ciphertext)]).
Proof.
  intros B L. split; [| split; [| split]].
  - intros H.
    destruct (find has_surrogate (segments body title subtitle))
      as [bad |] eqn:F.
    + exists (encode_error_text bad).
      apply send_refused_by_surrogate; assumption.
    + exfalso. pose proof (find_none _ _ F) as A. cbv beta in A.
      destruct H as [H | [[t [-> [T H]]] | [t [s [-> [T [-> [S H]]]]]]]].
      * apply lone_surrogate_refused in H.
        rewrite (A body (segments_body _ _ _)) in H. discriminate.
      * apply lone_surrogate_refused in H.
        rewrite (A t (segments_title _ _ _ T)) in H. discriminate.
      * apply lone_surrogate_refused in H.
        rewrite (A s (segments_subtitle _ _ _ T S)) in H. discriminate.
  - intros t s -> -> T S Pt Ps Pb.
    apply plain_segment_encode in Pt as [St Et], Ps as [Ss Es],
        Pb as [Sb Eb].
    destruct t as [| c t]; [contradiction |].
    destruct s as [| c' s]; [contradiction |].
    rewrite send_sends by
      (try assumption; cbn [segments truth andb find]; now rewrite St, Ss, Sb).
    cbn [segments truth andb path_of flat_map].
    now rewrite Et, Es, Eb, <- !app_assoc, app_nil_r.
  - intros t -> T S Pt Pb.
    apply plain_segment_encode in Pt as [St Et], Pb as [Sb Eb].
    destruct t as [| c t]; [contradiction |].
    assert (G : segments body (Some (c :: t)) subtitle = [c :: t; body]).
    { unfold segments. destruct subtitle as [s |]; [| reflexivity].
      cbn [truthy] in S. now rewrite S. }
    rewrite send_sends by
      (try assumption; rewrite G; cbn [find]; now rewrite St, Sb).
    rewrite G. cbn [path_of flat_map].
    now rewrite Et, Eb, <- !app_assoc, app_nil_r.
  - intros T Pb. apply plain_segment_encode in Pb as [Sb Eb].
    assert (G : segments body title subtitle = [body]).
    { unfold segments. destruct title as [t |]; [| reflexivity].
      cbn [truthy] in T. rewrite T. now destruct subtitle. }
    rewrite send_sends by
      (try assumption; rewrite G; cbn [find]; now rewrite Sb).
    rewrite G. cbn [path_of flat_map].
    now rewrite Eb, <- !app_assoc, app_nil_r.
Qed.

(** *** What decides the outcome *)

Lemma handle_response_any_state (response : Response) (w w' : world) :
  fst (_handle_response response w) = fst (_handle_response response w').
Proof.
  unfold _handle_response. run.
  destruct (Z.eqb (status_code response) 200); simpl; [| reflexivity].
  destruct (json_body response) as [v | e]; simpl.
  - destruct v; simpl; try reflexivity.
    destruct (dict_get d (py "code")) as [c |]; simpl.
    + destruct (eq_int c 200); simpl; [reflexivity |].
      destruct (dict_get d (py "message")); reflexivity.
    + destruct (dict_get d (py "message")); reflexivity.
  - destruct (is_JSONDecodeError e); reflexivity.
Qed.

(** X19: the outcome of a call that sends its request is decided by the
    answer of the transport alone.  Two calls, of either method, with any
    arguments and in any states, whose requests get the same answer, have
    the same outcome. *)
Theorem same_answer_same_outcome (c1 c2 : invocation) (r1 r2 : Request)
  (w1 w2 : world) :
  wire (snd (invoke c1 w1)) = wire w1 ++ [r1] ->
  wire (snd (invoke c2 w2)) = wire w2 ++ [r2] ->
  network w1 (wire w1) r1 = network w2 (wire w2) r2 ->
  fst (invoke c1 w1) = fst (invoke c2 w2).
Proof.
  intros W1 W2 N.
  rewrite (wire_transact c1 r1 w1 W1), (wire_transact c2 r2 w2 W2).
  destruct (network w2 (wire w2) r2) as [response | e] eqn:N2.
  - rewrite (transact_return r1 response w1 N),
      (transact_return r2 response w2 N2).
    now rewrite (handle_response_any_state response (push r1 w1) (push r2 w2)).
  - now rewrite (transact_raise r1 e w1 N), (transact_raise r2 e w2 N2).
Qed.

(** X20: the ['code'] of a parsed body counts as success only when it is
    the number 200, as an [int] or as a [float] of that value.  A body
    without ['code'], or whose ['code'] is a string (the string "200"
    too), [None], a boolean, a list or an object, is an API error. *)
Theorem code_must_be_the_number_200 (response : Response) (d : dict)
  (w : world) :
  status_code response = 200%Z ->
  json_body response = Return (VDict d) ->
  (fst (_handle_response response w) = Return (VDict d) <->
   dict_get d (py "code") = Some (VInt 200) \/
   exists q, dict_get d (py "code") = Some (VFloat (Finite q)) /\
             Qeq q (inject_Z 200)) /\
  (fst (_handle_response response w) <> Return (VDict d) ->
   fst (_handle_response response w)
   = Raise (Bark BarkServerException (py "API error: " ++ message_of d)
              (Some 200%Z) (Some (VDict d)))).
Proof.
  intros S J. rewrite (handle_response_dict response d w S J).
  unfold code_is_200. split.
  - split.
    + destruct (dict_get d (py "code")) as [c |]; [| discriminate].
      destruct (eq_int c 200) eqn:E; [intros _ | discriminate].
      destruct c as [| b | z | [q | |] | | |]; simpl in E; try discriminate.
      * now destruct b.
      * left. apply Z.eqb_eq in E. now subst.
      * right. exists q. split; [reflexivity | now apply Qeq_bool_iff].
    + intros [-> | [q [-> Q]]]; [reflexivity |].
      simpl. apply Qeq_bool_iff in Q. now rewrite Q.
  - destruct (dict_get d (py "code")) as [c |]; [| intros _; reflexivity].
    destruct (eq_int c 200); intros H; [now elim H | reflexivity].
Qed.

End SDK.






(** ** Concrete runs *)

(** The four outcomes of a call, each on the request
    [GET https://api.day.app/K/Title/Hello?sound=bell]. *)
Example send_returns_parsed_body :
  send no_text no_text (py "Hello") (Some (py "Title")) None None None None
    (Some (py "bell")) None None None None None
    (answering (Return (response_of body_ok)))
  = (Return (VDict body_ok),
     sent [get_request (py "https://api.day.app/K/Title/Hello")
             [(py "sound", VStr (py "bell"))]]
       (answering (Return (response_of body_ok)))).
Proof. reflexivity. Qed.

Example send_wraps_transport_failure :
  fst (send no_text no_text (py "Hello") (Some (py "Title")) None None None
         None (Some (py "bell")) None None None None None
         (answering (Raise (Lib RequestException (py "timed out")))))
  = Raise (Bark BarkNetworkException (py "Network error: timed out")
             None None).
Proof. reflexivity. Qed.

Example send_reports_server_failure :
  fst (send no_text no_text (py "Hello") (Some (py "Title")) None None None
         None (Some (py "bell")) None None None None None
         (answering (Return response_500)))
  = Raise (Bark BarkServerException
             (py "Server returned error: Internal Server Error")
             (Some 500%Z) None).
Proof. reflexivity. Qed.

Example send_refuses_unknown_level :
  send no_text no_text (py "Hello") None None None None None None None
    (Some (py "urgent")) None None None demo_world
  = (Raise invalid_level, demo_world).
Proof. reflexivity. Qed.

Example send_post_passes_booleans_through :
  wire (snd (send_post no_text (py "Hello") (Some (py "Title")) None
               [(py "call", VBool true)] demo_world))
  = [post_request demo_client
       [(py "body", VStr (py "Hello")); (py "title", VStr (py "Title"));
        (py "call", VBool true)]].
Proof. reflexivity. Qed.

(** A lone surrogate in the title: the endpoint cannot be built. *)
Example send_refuses_lone_surrogate :
  send (fun _ => py "surrogates not allowed") no_text (py "Hello")
    (Some [0xD800%N]) None None None None None None None None None None
    demo_world
  = (Raise (Bark BarkClientException
              (py "Error building endpoint URL: surrogates not allowed")
              None None), demo_world).
Proof. reflexivity. Qed.

Lemma handle_response_server_error_witness :
  _handle_response no_text response_500 demo_world =
  (Raise (Bark BarkServerException
            (py "Server returned error: Internal Server Error")
            (Some 500%Z) None), demo_world) /\
  _handle_response no_text response_not_json demo_world =
  (Raise (Bark BarkServerException (py "Invalid JSON response: <html>")
            (Some 200%Z) None), demo_world) /\
  _handle_response no_text response_huge_number demo_world =
  (json_body response_huge_number, demo_world).
Proof.
  split; [| split].
  - destruct (handle_response_server_error no_text response_500 demo_world)
      as [H _].
    apply H. simpl. lia.
  - destruct (handle_response_server_error no_text response_not_json
                demo_world) as [_ [H _]].
    apply (H (py "Expecting value")); reflexivity.
  - destruct (handle_response_server_error no_text response_huge_number
                demo_world) as [_ [_ H]].
    apply H; try reflexivity. intros t E. discriminate E.
Defined.

Lemma handle_response_parsed_witness :
  _handle_response no_text (response_of body_ok) demo_world =
  (Return (VDict body_ok), demo_world) /\
  _handle_response no_text (response_of body_bad_key) demo_world =
  (Raise (Bark BarkServerException (py "API error: bad key") (Some 200%Z)
            (Some (VDict body_bad_key))), demo_world).
Proof.
  split.
  - exact (handle_response_parsed no_text (response_of body_ok) body_ok
             demo_world eq_refl eq_refl).
  - exact (handle_response_parsed no_text (response_of body_bad_key)
             body_bad_key demo_world eq_refl eq_refl).
Defined.

Lemma init_key_witness :
  __init__ (Some []) (Some (py "https://bark.example.org")) =
  Raise (Bark BarkClientException (py "Bark key cannot be empty") None None) /\
  __init__ None None =
  Raise (Bark BarkClientException (py "Bark key cannot be empty") None None) /\
  (exists me,
     __init__ (Some (py "K")) (Some (py "https://bark.example.org"))
     = Return me /\
     server_of me = py "https://bark.example.org" /\
     base_url me = py "https://bark.example.org/K") /\
  (exists me,
     __init__ (Some (py "K")) None = Return me /\
     base_url me = py "https://api.day.app/K") /\
  (exists me,
     __init__ (Some (py "K")) (Some []) = Return me /\
     base_url me = py "https://api.day.app/K").
Proof.
  split; [| split; [| split; [| split]]].
  - apply (init_key no_text no_text (Some [])
             (Some (py "https://bark.example.org"))). reflexivity.
  - apply (init_key no_text no_text None None). reflexivity.
  - destruct (init_key no_text no_text (Some (py "K"))
                (Some (py "https://bark.example.org"))) as [_ H].
    destruct (H (py "K") eq_refl) as [me [H1 [_ [H2 _]]]].
    + vm_compute. discriminate.
    + destruct (H2 (py "https://bark.example.org") eq_refl) as [S B].
      * vm_compute. discriminate.
      * exists me. split; [exact H1 |]. split; [exact S |].
        rewrite B. reflexivity.
  - destruct (init_key no_text no_text (Some (py "K")) None) as [_ H].
    destruct (H (py "K") eq_refl) as [me [H1 [_ [_ [H3 _]]]]].
    + vm_compute. discriminate.
    + destruct (H3 (or_introl eq_refl)) as [_ B].
      exists me. split; [exact H1 |]. rewrite B. reflexivity.
  - destruct (init_key no_text no_text (Some (py "K")) (Some [])) as [_ H].
    destruct (H (py "K") eq_refl) as [me [H1 [_ [_ [H3 _]]]]].
    + vm_compute. discriminate.
    + destruct (H3 (or_intror eq_refl)) as [_ B].
      exists me. split; [exact H1 |]. rewrite B. reflexivity.
Defined.

Lemma send_empty_body_witness :
  send no_text no_text [] (Some (py "Title")) None None None None
    (Some (py "bell")) (Some true) (Some (py "urgent")) None None None
    (answering (Return (response_of body_ok)))
  = (Raise (Bark BarkClientException (py "Notification body cannot be empty")
              None None), answering (Return (response_of body_ok))) /\
  wire (snd (send no_text no_text [] (Some (py "Title")) None None None None
               (Some (py "bell")) (Some true) (Some (py "urgent")) None None
               None (answering (Return (response_of body_ok))))) = [].
Proof.
  apply (send_empty_body no_text no_text [] (Some (py "Title")) None None
           None None (Some (py "bell")) (Some true) (Some (py "urgent")) None
           None None (answering (Return (response_of body_ok)))).
  reflexivity.
Defined.

Lemma send_path_of_plain_segments_witness :
  wire (snd (send no_text no_text (py "E") (Some (py "A B")) (Some (py "C D"))
               None None None None None None None None None demo_world))
  = [get_request (py "https://api.day.app/K/A%20B/C%20D/E") []] /\
  wire (snd (send no_text no_text (py "E") (Some (py "A&B")) (Some []) None
               None None None None None None None None demo_world))
  = [get_request (py "https://api.day.app/K/A%26B/E") []] /\
  wire (snd (send no_text no_text (py "x=1?") (Some []) (Some (py "C D"))
               None None None None None None None None None demo_world))
  = [get_request (py "https://api.day.app/K/x%3D1%3F") []] /\
  exists m,
    send no_text no_text (py "E") (Some (py "A B")) (Some [0xDC00%N]) None
      None None None None None None None None demo_world
    = (Raise (Bark BarkClientException
                (py "Error building endpoint URL: " ++ m) None None),
       demo_world).
Proof.
  split; [| split; [| split]].
  - destruct (send_path_of_plain_segments no_text no_text (py "E")
                (Some (py "A B")) (Some (py "C D")) None None None None None
                None None None None demo_world eq_refl eq_refl)
      as [_ [H _]].
    apply (H (py "A B") (py "C D") eq_refl eq_refl); try reflexivity;
      vm_compute; discriminate.
  - destruct (send_path_of_plain_segments no_text no_text (py "E")
                (Some (py "A&B")) (Some []) None None None None None
                None None None None demo_world eq_refl eq_refl)
      as [_ [_ [H _]]].
    apply (H (py "A&B") eq_refl); try reflexivity.
    vm_compute. discriminate.
  - destruct (send_path_of_plain_segments no_text no_text (py "x=1?")
                (Some []) (Some (py "C D")) None None None None None
                None None None None demo_world eq_refl eq_refl)
      as [_ [_ [_ H]]].
    apply H; reflexivity.
  - destruct (send_path_of_plain_segments no_text no_text (py "E")
                (Some (py "A B")) (Some [0xDC00%N]) None None None None None
                None None None None demo_world eq_refl eq_refl)
      as [H _].
    apply H. right. right. exists (py "A B"), [0xDC00%N].
    repeat split; try reflexivity; vm_compute; discriminate.
Defined.

(** Not every valid request gets the path of encoded segments: a title
    that is a lone surrogate gives no request at all, and the slash of the
    title "C/D" stays in the path. *)
Lemma send_path_counterexample :
  (truth (py "E") = true /\ send_level_invalid None = false /\
   ~ exists r,
       wire (snd (send no_text no_text (py "E") (Some [0xD800%N]) None None
                    None None None None None None None None demo_world))
       = wire demo_world ++ [r]) /\
  (exists r,
     wire (snd (send no_text no_text (py "E") (Some (py "C/D")) None None
                  None None None None None None None None demo_world))
     = wire demo_world ++ [r] /\
     req_url r = py "https://api.day.app/K/C/D/E" /\
     req_url r <> base_url (self demo_world) ++ py "/" ++
                  encode (py "C/D") ++ py "/" ++ encode (py "E")).
Proof.
  split.
  - split; [reflexivity |]. split; [reflexivity |].
    intros [r H]. vm_compute in H. discriminate.
  - eexists. split; [reflexivity |]. split; [reflexivity |].
    vm_compute. discriminate.
Qed.

(** Not every body that fails to parse gives a BarkServerException: the
    ValueError of the parser passes through the handler. *)
Lemma handle_response_server_error_counterexample :
  status_code response_huge_number = 200%Z /\
  (exists e, json_body response_huge_number = Raise e) /\
  (exists t,
     fst (_handle_response no_text response_huge_number demo_world)
     = Raise (Lib ValueError t)) /\
  forall m st body,
    fst (_handle_response no_text response_huge_number demo_world)
    <> Raise (Bark BarkServerException m st body).
Proof.
  split; [reflexivity |]. split; [eexists; reflexivity |].
  split; [eexists; reflexivity |].
  intros m st body H. vm_compute in H. discriminate.
Qed.

(** Not every body that parses is returned or reported as a server
    error: the body [[]] parses, and the handler raises AttributeError. *)
Lemma handle_response_parsed_counterexample :
  status_code response_list = 200%Z /\
  json_body response_list = Return (VList []) /\
  fst (_handle_response no_text response_list demo_world)
  = Raise (Lib AttributeError (py "'list' object has no attribute 'get'")) /\
  (forall m st body,
     fst (_handle_response no_text response_list demo_world)
     <> Raise (Bark BarkServerException m st body)) /\
  fst (_handle_response no_text response_list demo_world)
  <> Return (VList []).
Proof.
  split; [reflexivity |]. split; [reflexivity |]. split; [reflexivity |].
  split.
  - intros m st body H. vm_compute in H. discriminate.
  - intros H. vm_compute in H. discriminate.
Qed.

Example usage_example_lets_write_error_out :
  fst (usage_example no_text no_text stdout_ascii
         {| sys := demo_world; out := [] |})
  = Raise (Lib UnicodeEncodeError
             (py "'ascii' codec can't encode character: ordinal not in range(128)")).
Proof. reflexivity. Qed.

Lemma usage_example_contained_witness :
  fst (usage_example no_text no_text stdout_fine
         {| sys := demo_world; out := [] |}) = Return tt /\
  wire (sys (snd (usage_example no_text no_text stdout_fine
                    {| sys := demo_world; out := [] |})))
  = [hello_request].
Proof.
  destruct (usage_example_contained no_text no_text stdout_fine
              {| sys := demo_world; out := [] |}) as [_ [_ [_ [_ H]]]].
  destruct (H (fun _ _ => eq_refl)) as [R [_ W]].
  split; [exact R |]. apply W.
  intros [response [d [E _]]]. discriminate E.
Defined.

Lemma main_stops_at_first_failure_witness :
  exists e,
    fst (main no_text no_text stdout_fine second_refused) = Raise e /\
    fst (invoke no_text no_text (example_call 1)
           (example_state second_refused 1)) = Raise e /\
    wire (sys (snd (main no_text no_text stdout_fine second_refused)))
    = [hello_request; titled_request].
Proof.
  destruct (main_stops_at_first_failure no_text no_text stdout_fine
              second_refused) as [_ H].
  destruct (H (fun _ _ => eq_refl)) as [Stops _].
  apply (Stops 1%nat); [lia | |].
  - intros j Hj. replace j with 0%nat by lia.
    exists (response_of body_ok), body_ok. now repeat split.
  - intros [response [d [E [S _]]]].
    injection E as <-. discriminate S.
Defined.

Lemma subtitle_without_title_dropped_witness :
  send no_text no_text (py "E") None (Some (py "C/D")) None None None None
    None None None None None demo_world
  = send no_text no_text (py "E") None None None None None None None None
      None None None demo_world /\
  exists rs,
    wire (snd (send no_text no_text (py "E") None (Some (py "C/D")) None None
                 None None None None None None None demo_world))
    = wire demo_world ++ rs /\
    forall r, In r rs ->
      (exists qb, quote no_text (py "E") default_safe = Return qb /\
                  req_url r = base_url (self demo_world) ++ py "/" ++ qb) /\
      dict_contains (req_params r) (py "subtitle") = false.
Proof.
  apply (subtitle_without_title_dropped no_text no_text (py "E") None
           (Some (py "C/D")) None None None None None None None None None
           demo_world).
  reflexivity.
Defined.

(** ** Concrete runs of the further properties *)

Lemma transport_failure_reported_witness :
  invoke no_text no_text send_E
    (answering (Raise (Lib RequestException (py "timed out"))))
  = (Raise (Bark BarkNetworkException (py "Network error: timed out")
              None None),
     push request_E (answering (Raise (Lib RequestException (py "timed out"))))).
Proof.
  apply (transport_failure_reported no_text no_text send_E request_E
           (Lib RequestException (py "timed out"))
           (answering (Raise (Lib RequestException (py "timed out"))))).
  - reflexivity.
  - reflexivity.
  - reflexivity.
Defined.

Lemma only_sdk_exceptions_witness :
  well_behaved (answering (Return response_500)) /\
  ((exists v,
      fst (invoke no_text no_text send_E (answering (Return response_500)))
      = Return v) \/
   (exists cls m st body,
      fst (invoke no_text no_text send_E (answering (Return response_500)))
      = Raise (Bark cls m st body))).
Proof.
  assert (B : well_behaved (answering (Return response_500)))
    by (intros r; reflexivity).
  split; [exact B |].
  apply (only_sdk_exceptions no_text no_text send_E
           (answering (Return response_500)) B).
Defined.

Lemma non_object_body_escapes_witness :
  fst (invoke no_text no_text send_E (answering (Return response_list)))
  = Raise (Lib AttributeError (py "'list' object has no attribute 'get'")).
Proof.
  apply (non_object_body_escapes no_text no_text send_E request_E
           response_list (VList []) (answering (Return response_list)));
    reflexivity.
Defined.

Lemma transport_value_error_as_client_error_witness :
  invoke no_text no_text send_E
    (answering (Raise (Lib ValueError (py "bad timeout"))))
  = (Raise (Bark BarkClientException (py "Invalid parameter: bad timeout")
              None None),
     push request_E (answering (Raise (Lib ValueError (py "bad timeout"))))).
Proof.
  apply (transport_value_error_as_client_error no_text no_text send_E
           request_E (Lib ValueError (py "bad timeout"))
           (answering (Raise (Lib ValueError (py "bad timeout")))));
    reflexivity.
Defined.

Lemma status_code_only_on_server_errors_witness :
  str_exn (Bark BarkServerException
             (py "Server returned error: Internal Server Error")
             (Some 500%Z) None)
  = py "Server returned error: Internal Server Error (Status code: 500)".
Proof.
  destruct (status_code_only_on_server_errors no_text no_text send_E
              BarkServerException
              (py "Server returned error: Internal Server Error")
              (Some 500%Z) None (answering (Return response_500)))
    as [r [response [W [N [S [_ P]]]]]].
  - intros r. reflexivity.
  - reflexivity.
  - injection S as S. rewrite <- S in P. exact P.
Defined.

Lemma send_post_payload_witness :
  send_post_data (py "Hello") (Some (py "Title")) (Some [])
    [(py "group", VStr (py "g")); (py "call", VBool true)]
  = [(py "body", VStr (py "Hello")); (py "title", VStr (py "Title"));
     (py "group", VStr (py "g")); (py "call", VBool true)].
Proof.
  apply (send_post_payload (py "Hello") (Some (py "Title")) (Some [])
           [(py "group", VStr (py "g")); (py "call", VBool true)]).
  - vm_compute. constructor.
    + intros [H | []]. discriminate.
    + constructor; [intros [] | constructor].
  - reflexivity.
  - reflexivity.
  - reflexivity.
Defined.

Lemma send_endpoint_or_refusal_witness :
  snd (send no_text no_text (py "E") (Some (py "A B")) (Some []) None None
         None (Some (py "bell")) None None None None None demo_world)
  = push (get_request (py "https://api.day.app/K/A%20B/E")
            [(py "sound", VStr (py "bell"))]) demo_world /\
  send (fun _ => py "surrogates not allowed") no_text (py "E")
    (Some [0xD800%N]) None None None None None None None None None None
    demo_world
  = (Raise (Bark BarkClientException
              (py "Error building endpoint URL: surrogates not allowed")
              None None), demo_world).
Proof.
  split.
  - apply (send_endpoint_or_refusal no_text no_text (py "E") (Some (py "A B"))
             (Some []) None None None (Some (py "bell")) None None None None
             None demo_world); reflexivity.
  - apply (send_endpoint_or_refusal (fun _ => py "surrogates not allowed")
             no_text (py "E") (Some [0xD800%N]) None None None None None None
             None None None None demo_world); reflexivity.
Defined.

Lemma send_level_checked_witness :
  (exists r,
     snd (send no_text no_text (py "E") None None None None None None None
            (Some (py "critical")) None None None demo_world)
     = push r demo_world /\
     dict_get (req_params r) (py "level") = Some (VStr (py "critical"))) /\
  send no_text no_text (py "E") None None None None None None None
    (Some (py "urgent")) None None None demo_world
  = (Raise invalid_level, demo_world).
Proof.
  split.
  - apply (send_level_checked no_text no_text (py "E") None None None None
             None None None (Some (py "critical")) None None None demo_world);
      [reflexivity | reflexivity |].
    right. right. exists (py "critical"). split; [reflexivity |].
    simpl. tauto.
  - apply (send_level_checked no_text no_text (py "E") None None None None
             None None None (Some (py "urgent")) None None None demo_world);
      [reflexivity | reflexivity |].
    intros [H | [H | [l [H I]]]]; [discriminate | discriminate |].
    injection H as <-. vm_compute in I.
    destruct I as [I | [I | [I | [I | []]]]]; discriminate.
Defined.

Lemma slash_in_title_is_a_separator_witness :
  send no_text no_text (py "E") (Some (py "a" ++ py "/" ++ py "b")) None None
    None None None None None None None None demo_world
  = send no_text no_text (py "E") (Some (py "a")) (Some (py "b")) None None
      None None None None None None None demo_world.
Proof.
  apply (slash_in_title_is_a_separator no_text no_text (py "E") (py "a")
           (py "b") None None None None None None None None None demo_world).
  - vm_compute. discriminate.
  - vm_compute. discriminate.
  - reflexivity.
  - reflexivity.
Defined.

Lemma quote_keeps_unreserved_witness :
  quote no_text (py "release-1.0_final~/notes") default_safe
  = Return (py "release-1.0_final~/notes").
Proof.
  apply (quote_keeps_unreserved no_text (py "release-1.0_final~/notes")).
  reflexivity.
Defined.

Lemma quoted_is_url_safe_witness :
  forallb (fun c => byte_in c URL_SAFE) (py "a%20b%3Fc%3D1%26d%23e") = true /\
  forall c, In c (py " ?#&=+") -> ~ In c (py "a%20b%3Fc%3D1%26d%23e").
Proof.
  apply (quoted_is_url_safe no_text (py "a b?c=1&d#e")
           (py "a%20b%3Fc%3D1%26d%23e")).
  - apply Forall_forall. intros c H. apply N.leb_le. revert c H.
    apply forallb_forall. reflexivity.
  - reflexivity.
Defined.

Lemma same_answer_same_outcome_witness :
  fst (invoke no_text no_text send_E
         (answering (Return (response_of body_bad_key))))
  = fst (invoke no_text no_text send_post_E
           (answering (Return (response_of body_bad_key)))).
Proof.
  apply (same_answer_same_outcome no_text no_text send_E send_post_E request_E
           (post_request demo_client [(py "body", VStr (py "E"))])
           (answering (Return (response_of body_bad_key)))
           (answering (Return (response_of body_bad_key))));
    reflexivity.
Defined.

Lemma code_must_be_the_number_200_witness :
  fst (_handle_response no_text
         (response_of [(py "code", VStr (py "200"))]) demo_world)
  = Raise (Bark BarkServerException (py "API error: Unknown error")
             (Some 200%Z) (Some (VDict [(py "code", VStr (py "200"))]))).
Proof.
  apply (code_must_be_the_number_200 no_text
           (response_of [(py "code", VStr (py "200"))])
           [(py "code", VStr (py "200"))] demo_world eq_refl eq_refl).
  vm_compute. discriminate.
Defined.
